(** * avocado.utils.configure_network and avocado.utils.disk

    A shallow embedding of the two modules and the properties their
    specification states about them.

    Python text is carried as [string] (one [ascii] per code point below 256),
    exceptions as an explicit [result], and everything the modules do to the
    host (files, commands, sessions) through a small state monad over
    [World].  What the operating system answers is read from an [Env]. *)

From Stdlib Require Import ZArith Ascii DecimalString.
From stdpp Require Import base strings list gmap.

(** ** Python values *)

(** Scalars that reach the modules as arguments. *)
Inductive pyval :=
| PNone
| PBool (b : bool)
| PInt (z : Z)
| PStr (s : string).

(** What [json.loads] builds. *)
#[warnings="-register-all"]
Inductive json :=
| JNull
| JBool (b : bool)
| JNum (z : Z)
| JStr (s : string)
| JArr (items : list json)
| JObj (members : list (string * json)).

(** The exception classes that occur; all derive from [Exception]. *)
Inductive exn :=
| AttributeError (attr : string)
| TypeError
| IndexError
| KeyError (key : string)
| UnboundLocalError (var : string)
| NWException (msg : string)
| DiskUtilsError (msg : string)
| CmdError (msg : string)
| OtherException (cls msg : string).

Inductive result (A : Type) :=
| Return (a : A)
| Raise (e : exn).
Arguments Return {A} a.
Arguments Raise {A} e.

Definition rbind {A B} (r : result A) (k : A -> result B) : result B :=
  match r with
  | Return a => k a
  | Raise e => Raise e
  end.

Declare Scope result_scope.
Delimit Scope result_scope with result.
Notation "x <-? r ; k" := (rbind r (fun x => k))
  (at level 100, r at next level, right associativity) : result_scope.

(** Truth value testing, [bool(v)]. *)
Definition truthy (v : pyval) : bool :=
  match v with
  | PNone => false
  | PBool b => b
  | PInt z => negb (z =? 0)%Z
  | PStr s => negb (String.eqb s "")
  end.

Definition json_truthy (j : json) : bool :=
  match j with
  | JNull => false
  | JBool b => b
  | JNum z => negb (z =? 0)%Z
  | JStr s => negb (String.eqb s "")
  | JArr l => negb (bool_decide (length l = 0))
  | JObj l => negb (bool_decide (length l = 0))
  end.

Definition Z_to_string (z : Z) : string := NilEmpty.string_of_int (Z.to_int z).

(** [str(v)], which is what a [%s] conversion inserts. *)
Definition py_str (v : pyval) : string :=
  match v with
  | PNone => "None"
  | PBool true => "True"
  | PBool false => "False"
  | PInt z => Z_to_string z
  | PStr s => s
  end.

(** [bool] is a subclass of [int]: [True == 1]. *)
Definition as_int (v : pyval) : option Z :=
  match v with
  | PBool b => Some (if b then 1 else 0)%Z
  | PInt z => Some z
  | _ => None
  end.

(** [a == b] on scalars.  A [str] never equals a number. *)
Definition py_eq (a b : pyval) : bool :=
  match a, b with
  | PNone, PNone => true
  | PStr s, PStr t => String.eqb s t
  | _, _ =>
      match as_int a, as_int b with
      | Some x, Some y => (x =? y)%Z
      | _, _ => false
      end
  end.

(** [str(exc)]. *)
Definition exn_str (e : exn) : string :=
  match e with
  | AttributeError attr => "object has no attribute '" +:+ attr +:+ "'"
  | TypeError => "unsupported operand"
  | IndexError => "list index out of range"
  | KeyError key => "'" +:+ key +:+ "'"
  | UnboundLocalError var =>
      "local variable '" +:+ var +:+ "' referenced before assignment"
  | NWException msg => msg
  | DiskUtilsError msg => msg
  | CmdError msg => msg
  | OtherException _ msg => msg
  end.

(** ** Strings *)

(** [\s] of the [re] module on [str] patterns, for code points below 256. *)
Definition is_space (c : ascii) : bool :=
  match c with
  | "009" | "010" | "011" | "012" | "013"
  | "028" | "029" | "030" | "031" | " " | "133" | "160" => true
  | _ => false
  end%char.

Definition is_digit (c : ascii) : bool :=
  match c with
  | "0" | "1" | "2" | "3" | "4" | "5" | "6" | "7" | "8" | "9" => true
  | _ => false
  end%char.

Definition is_blank (c : ascii) : bool :=
  match c with
  | " " => true
  | _ => false
  end%char.

(** [s.startswith(p)]. *)
Definition startswith (s p : string) : bool := String.prefix p s.

(** [s.lstrip(chars)] and [s.rstrip(chars)], [chars] given as a predicate. *)
Fixpoint lstrip (p : ascii -> bool) (s : string) : string :=
  match s with
  | "" => ""
  | String c r => if p c then lstrip p r else s
  end.

Fixpoint rstrip (p : ascii -> bool) (s : string) : string :=
  match s with
  | "" => ""
  | String c r =>
      match rstrip p r with
      | "" => if p c then "" else String c ""
      | r' => String c r'
      end
  end.

Definition strip (p : ascii -> bool) (s : string) : string :=
  rstrip p (lstrip p s).

(** [re.split(r'\s+', s)].  [in_run] tells that the character before was
    white space as well, so that a run of white space separates once.  The
    head of the answer is the piece that starts at the current position. *)
Fixpoint re_split_ws_from (in_run : bool) (s : string) : list string :=
  match s with
  | "" => [""]
  | String c r =>
      if is_space c then
        if in_run then re_split_ws_from true r
        else "" :: re_split_ws_from true r
      else
        match re_split_ws_from false r with
        | piece :: pieces => String c piece :: pieces
        | [] => [String c ""]
        end
  end.

Definition re_split_ws (s : string) : list string := re_split_ws_from false s.

(** [needle in hay] for two [str]. *)
Fixpoint str_contains (needle hay : string) : bool :=
  String.prefix needle hay ||
  match hay with
  | "" => false
  | String _ r => str_contains needle r
  end.

(** [l[i]] for a non-negative index. *)
Definition getitem {A} (l : list A) (i : nat) : result A :=
  match l !! i with
  | Some x => Return x
  | None => Raise IndexError
  end.

(** [for data in range(lo, hi): acc = body(data, acc)]. *)
Definition for_range {S} (lo hi : nat) (body : nat -> S -> result S)
    (init : S) : result S :=
  foldl (fun acc data => rbind acc (body data)) (Return init)
        (seq lo (hi - lo)).

(** ** JSON values as the modules use them *)

(** [j[key]] with a [str] key. *)
Fixpoint assoc_get (key : string) (l : list (string * json)) : option json :=
  match l with
  | [] => None
  | (k, v) :: rest => if String.eqb k key then Some v else assoc_get key rest
  end.

Definition json_getitem (j : json) (key : string) : result json :=
  match j with
  | JObj l =>
      match assoc_get key l with
      | Some v => Return v
      | None => Raise (KeyError key)
      end
  | _ => Raise TypeError
  end.

(** [for x in j]: the elements of a list, the keys of a dict. *)
Definition json_iter (j : json) : result (list json) :=
  match j with
  | JArr l => Return l
  | JObj l => Return (map (fun kv => JStr (fst kv)) l)
  | JStr s => Return (map (fun c => JStr (String c "")) (String.list_ascii_of_string s))
  | _ => Raise TypeError
  end.

(** ** The host *)

(** What the modules do to the host, in the order it happens. *)
Inductive Event :=
| Ran (cmd : string) (sudo : bool)
| RanRemote (cmd : string)
| Popen (cmd : string)
| Connect (host port username key password : pyval).

(** The part of the host the modules change: the files they move and write,
    and the record of what they have run. *)
Record World := mkWorld {
  files : gmap string string;
  history : list Event
}.

(** How a command ends: it exits with a status, or running it raises. *)
Inductive Outcome :=
| Exited (status : Z) (stdout : string)
| Failed (e : exn).

(** An established remote session. *)
Record Session := mkSession {
  peer : pyval;
  peer_port : pyval;
  peer_user : pyval
}.

(** What the host answers.  Every answer may depend on all that happened
    before. *)
Record Env := mkEnv {
  distro_name : string;
  run_cmd : World -> string -> bool -> Outcome;
  session_cmd : World -> Session -> string -> Outcome;
  session_open : World -> pyval -> pyval -> pyval -> pyval -> pyval -> option exn;
  popen_lines : World -> string -> list string;
  listdir : World -> string -> result (list string);
  json_loads : string -> result json;
  json_repr : json -> string;
  wait_polls : nat
}.

(** ** Computations that change the host and may raise *)

Definition M (A : Type) : Type := World -> result A * World.

Definition ret {A} (a : A) : M A := fun w => (Return a, w).

Definition raise {A} (e : exn) : M A := fun w => (Raise e, w).

Definition lift {A} (r : result A) : M A := fun w => (r, w).

Definition bind {A B} (m : M A) (k : A -> M B) : M B :=
  fun w =>
    match m w with
    | (Return a, w') => k a w'
    | (Raise e, w') => (Raise e, w')
    end.

Notation "x <- m ;; k" := (bind m (fun x => k))
  (at level 100, m at next level, right associativity).
Notation "m ;;; k" := (bind m (fun _ => k))
  (at level 100, right associativity).

(** [try: body  except ...: handler]; [handler e = None] when no clause
    matches [e], which then propagates. *)
Definition try_except {A} (body : M A) (handler : exn -> option (M A)) : M A :=
  fun w =>
    match body w with
    | (Return a, w') => (Return a, w')
    | (Raise e, w') =>
        match handler e with
        | Some h => h w'
        | None => (Raise e, w')
        end
    end.

Definition log_event (ev : Event) (w : World) : World :=
  {| files := files w; history := history w ++ [ev] |}.

Fixpoint rmapM {A B} (f : A -> result B) (l : list A) : result (list B) :=
  match l with
  | [] => Return []
  | x :: rest =>
      (y <-? f x ; ys <-? rmapM f rest ; Return (y :: ys))%result
  end.

Section Model.

Variable env : Env.

(** ** Collaborators *)

(** Modelled from the spec: [avocado.utils.process] is not among the two
    modules.  [process.run(cmd, ignore_status, sudo)] runs the command and
    gives its exit status and decoded output; a non-zero status raises
    [CmdError] unless [ignore_status] is set.  The text of that error is
    abridged.  A command is recorded in the history; the files that the
    modules move and write are taken not to be changed by it. *)
Definition process_run (cmd : string) (ignore_status sudo : bool)
    : M (Z * string) :=
  fun w =>
    let w' := log_event (Ran cmd sudo) w in
    match run_cmd env w cmd sudo with
    | Exited status stdout =>
        if negb ignore_status && negb (status =? 0)%Z
        then (Raise (CmdError ("Command '" +:+ cmd +:+ "' failed")), w')
        else (Return (status, stdout), w')
    | Failed e => (Raise e, w')
    end.

(** Modelled from the spec: [process.system] is [process.run] reduced to the
    exit status. *)
Definition process_system (cmd : string) (ignore_status sudo : bool) : M Z :=
  r <- process_run cmd ignore_status sudo ;; ret (fst r).

(** Modelled from the spec: [process.system_output] is [process.run] reduced
    to the output. *)
Definition process_system_output (cmd : string) (ignore_status sudo : bool)
    : M string :=
  r <- process_run cmd ignore_status sudo ;; ret (snd r).

(** Modelled from the spec: [Session.cmd(command)] of [avocado.utils.ssh]
    sends the command through the session and gives its output. *)
Definition Session_cmd (s : Session) (cmd : string) : M string :=
  fun w =>
    let w' := log_event (RanRemote cmd) w in
    match session_cmd env w s cmd with
    | Exited _ stdout => (Return stdout, w')
    | Failed e => (Raise e, w')
    end.

(** Modelled from the spec: [Session(host, port, user, key, password)]
    establishes the remote session or raises. *)
Definition Session_new (host port user key password : pyval) : M Session :=
  fun w =>
    let w' := log_event (Connect host port user key password) w in
    match session_open env w host port user key password with
    | None => (Return (mkSession host port user), w')
    | Some e => (Raise e, w')
    end.

(** Modelled from the spec: [distro.detect().name]. *)
Definition distro_detect_name : M string := ret (distro_name env).

(** Modelled from the spec: [genio.read_file(path)] gives the whole text of
    the file. *)
Definition genio_read_file (path : string) : M string :=
  fun w =>
    match files w !! path with
    | Some text => (Return text, w)
    | None => (Raise (OtherException "FileNotFoundError" path), w)
    end.

(** Modelled from the spec: [wait.wait_for(func, timeout, args)] calls
    the function on the arguments again and again until it answers something true or the
    time is over, and then gives that answer, else [None].  [polls] is the
    number of calls that fit in the time. *)
Fixpoint wait_for_polls (func : list pyval -> M pyval) (args : list pyval)
    (polls : nat) : M pyval :=
  match polls with
  | O => ret PNone
  | S polls' =>
      output <- func args ;;
      if truthy output then ret output
      else wait_for_polls func args polls'
  end.

Definition wait_for (func : list pyval -> M pyval) (timeout : Z)
    (args : list pyval) : M pyval :=
  wait_for_polls func args (wait_polls env).

(** [os.popen(cmd).readlines()]. *)
Definition os_popen_readlines (cmd : string) : M (list string) :=
  fun w => (Return (popen_lines env w cmd), log_event (Popen cmd) w).

(** [os.listdir(path)]. *)
Definition os_listdir (path : string) : M (list string) :=
  fun w => (listdir env w path, w).

(** [os.path.exists(path)]. *)
Definition os_path_exists (path : string) : M bool :=
  fun w => (Return (bool_decide (is_Some (files w !! path))), w).

(** [shutil.move(src, dst)] between two file paths: [dst] is replaced. *)
Definition shutil_move (src dst : string) : M unit :=
  fun w =>
    match files w !! src with
    | Some text =>
        (Return tt,
         {| files := <[dst := text]> (delete src (files w));
            history := history w |})
    | None => (Raise (OtherException "FileNotFoundError" src), w)
    end.

(** [with open(path, "w") as f: f.write(...)]: the file holds [text]
    afterwards. *)
Definition write_file (path text : string) : M unit :=
  fun w =>
    (Return tt, {| files := <[path := text]> (files w); history := history w |}).

(** [str(j)] for a decoded JSON value. *)
Definition json_str (j : json) : string :=
  match j with
  | JNull => "None"
  | JBool true => "True"
  | JBool false => "False"
  | JNum z => Z_to_string z
  | JStr s => s
  | _ => json_repr env j
  end.

(** ** avocado/utils/disk.py *)

Record PartitionInfo := mkPartitionInfo {
  Device : string;
  Boot : string;
  Start : string;
  End_ : string;
  Sectors : string;
  Size : string;
  Id : string;
  Type_ : string
}.

Definition get_disks : M (list string) :=
  json_result <- process_run "lsblk --json" false false ;;
  json_data <- lift (json_loads env (snd json_result)) ;;
  lift (blockdevices <-? json_getitem json_data "blockdevices" ;
        disks <-? json_iter blockdevices ;
        rmapM (fun disk =>
                 name <-? json_getitem disk "name" ;
                 Return ("/dev/" +:+ json_str name)) disks)%result.

(** The body of the loop of [get_partition_info] on a line that starts with
    the device, block by block; [values] is the list made before the loop.

    [if not value[1] == "*": ...] rebuilds [value] with an empty Boot field. *)
Definition insert_boot (values value : list string) : result (list string) :=
  (value1 <-? getitem value 1 ;
   if negb (String.eqb value1 "*") then
     device <-? getitem value 0 ;
     let boot := "" in
     values <-? for_range 1 (length value)
                  (fun data values =>
                     item <-? getitem value data ;
                     Return (values ++ [item])) values ;
     Return ([] ++ [device] ++ [boot] ++ values)
   else Return value)%result.

(** [if len(value) > 7: ...] joins what follows [value[7]] into it. *)
Definition merge_type (value : list string) : result (list string) :=
  (if bool_decide (7 < length value) then
     let type_atribute := length value - 7 in
     type_data <-? getitem value 7 ;
     type_data <-? for_range 1 type_atribute
                     (fun data type_data =>
                        item <-? getitem value (7 + data) ;
                        Return (type_data +:+ " " +:+ item))
                     type_data ;
     Return (<[7 := strip is_blank type_data]> value)
   else Return value)%result.

(** The [dict] that is returned. *)
Definition partition_record (value : list string) : result PartitionInfo :=
  (v0 <-? getitem value 0 ;
   v1 <-? getitem value 1 ;
   v2 <-? getitem value 2 ;
   v3 <-? getitem value 3 ;
   v4 <-? getitem value 4 ;
   v5 <-? getitem value 5 ;
   v6 <-? getitem value 6 ;
   v7 <-? getitem value 7 ;
   Return (mkPartitionInfo v0 v1 v2 v3 v4 v5 v6 v7))%result.

Definition partition_of_line (values : list string) (line : string)
    : result PartitionInfo :=
  (let value := re_split_ws line in
   value <-? insert_boot values value ;
   value <-? merge_type value ;
   partition_record value)%result.

(** [for line in fdisk_lines: ...]: lines that do not start with the device
    are skipped, the first that does is returned from; falling off the loop
    gives [None]. *)
Fixpoint scan_fdisk_lines (device : string) (values : list string)
    (fdisk_lines : list string) : result (option PartitionInfo) :=
  match fdisk_lines with
  | [] => Return None
  | line :: rest =>
      if negb (startswith line device) then scan_fdisk_lines device values rest
      else (info <-? partition_of_line values line ; Return (Some info))%result
  end.

(** ["/sbin/fdisk -l -u  '%s'" % disk_device]. *)
Definition fdisk_command (disk_device : string) : string :=
  "/sbin/fdisk -l -u  '" +:+ disk_device +:+ "'".

Definition get_partition_info (device : string) : M (option PartitionInfo) :=
  disks <- get_disks ;;
  if bool_decide (device ∈ disks) then
    raise (DiskUtilsError "provided disk partition not disk")
  else
    let values := [] in
    let disk_device := rstrip is_digit device in
    fdisk_lines <- os_popen_readlines (fdisk_command disk_device) ;;
    lift (scan_fdisk_lines device values fdisk_lines).

Definition is_linux_fs_type (device : string) : M bool :=
  info <- get_partition_info device ;;
  match info with
  | None => raise TypeError
  | Some info =>
      if py_eq (PStr (Type_ info)) (PInt 83) then ret true else ret false
  end.

(** ** avocado/utils/configure_network.py *)

Record NetworkInterface := mkNetworkInterface {
  name : string;
  remote_session : option Session
}.

(** The attributes of an instance: the two that [__init__] sets and the
    methods of the class. *)
Definition NetworkInterface_attributes : list string :=
  ["name"; "remote_session"; "set_ip"; "unset_ip"; "ping_check"; "set_mtu";
   "get_link_status"; "is_link_up"; "bring_up"; "bring_down";
   "_move_config_file"; "get_hwaddr"; "set_hwaddr"; "add_hwaddr";
   "remove_hwaddr"; "_get_interfce_details"; "get_ip_address";
   "get_inet_detail"].

Definition nl : string := String "010" "".

Definition _move_config_file (self : NetworkInterface)
    (src_conf dest_conf : string) : M unit :=
  present <- os_path_exists src_conf ;;
  if present then shutil_move src_conf dest_conf
  else raise (NWException (name self +:+ " interface not available")).

Definition bring_up (self : NetworkInterface) : M bool :=
  let cmd := "ifup " +:+ name self in
  try_except
    (process_system cmd false true ;;; ret true)
    (fun ex =>
       match ex with
       | CmdError _ => Some (raise (NWException ("ifup fails: " +:+ exn_str ex)))
       | _ => None
       end).

Definition bring_down (self : NetworkInterface) : M bool :=
  let cmd := "ifdown " +:+ name self in
  try_except
    (process_system cmd false true ;;; ret true)
    (fun ex => Some (raise (NWException ("ifdown fails: " +:+ exn_str ex)))).

Definition ipv6_lines : string :=
  "IPV6INIT=yes " +:+ nl +:+
  "IPV6_AUTOCONF=yes " +:+ nl +:+
  "IPV6_DEFROUTE=yes".

(** What [set_ip] writes for the rhel family. *)
Definition rhel_conf (self : NetworkInterface)
    (ipaddr netmask interface_type : pyval) : string :=
  "TYPE=" +:+ py_str interface_type +:+ " " +:+ nl +:+
  "BOOTPROTO=none " +:+ nl +:+
  "NAME=" +:+ name self +:+ " " +:+ nl +:+
  "DEVICE=" +:+ name self +:+ " " +:+ nl +:+
  "ONBOOT=yes " +:+ nl +:+
  "IPADDR=" +:+ py_str ipaddr +:+ " " +:+ nl +:+
  "NETMASK=" +:+ py_str netmask +:+ " " +:+ nl +:+
  ipv6_lines.

(** What [set_ip] writes for the SuSE family. *)
Definition suse_conf (ipaddr netmask : pyval) : string :=
  "IPADDR=" +:+ py_str ipaddr +:+ " " +:+ nl +:+
  "NETMASK='" +:+ py_str netmask +:+ "' " +:+ nl +:+
  ipv6_lines.

Definition set_ip (self : NetworkInterface)
    (ipaddr netmask interface_type : pyval) : M unit :=
  distro_name <- distro_detect_name ;;
  (if String.eqb distro_name "rhel" then
     let conf_file := "/etc/sysconfig/network-scripts/ifcfg-" +:+ name self in
     _move_config_file self conf_file (conf_file +:+ ".backup") ;;;
     let interface_type :=
       if truthy interface_type then PStr "Ethernet" else interface_type in
     write_file conf_file (rhel_conf self ipaddr netmask interface_type)
   else if String.eqb distro_name "SuSE" then
     let conf_file := "/etc/sysconfig/network/ifcfg-" +:+ name self in
     _move_config_file self conf_file (conf_file +:+ ".backup") ;;;
     write_file conf_file (suse_conf ipaddr netmask)
   else
     raise (NWException "Distro not supported by API , could not set ip")) ;;;
  bring_up self ;;;
  ret tt.

(** [conf_file] is a local that only the two [if] assign: it is carried as
    an [option], and using it while unassigned raises. *)
Definition unset_ip (self : NetworkInterface) : M unit :=
  let conf_file := None in
  distro_name <- distro_detect_name ;;
  let conf_file :=
    if String.eqb distro_name "rhel"
    then Some ("/etc/sysconfig/network-scripts/ifcfg-" +:+ name self)
    else conf_file in
  distro_name <- distro_detect_name ;;
  let conf_file :=
    if String.eqb distro_name "SuSE"
    then Some ("/etc/sysconfig/network/ifcfg-" +:+ name self)
    else conf_file in
  bring_down self ;;;
  match conf_file with
  | None => raise (UnboundLocalError "conf_file")
  | Some conf_file =>
      _move_config_file self (conf_file +:+ ".backup") conf_file
  end.

(** The command line that [ping_check] builds. *)
Definition ping_command (self : NetworkInterface)
    (peer_ip count option flood : pyval) : string :=
  let cmd :=
    "ping -I " +:+ name self +:+ " " +:+ py_str peer_ip +:+ " -c " +:+
    py_str count in
  if truthy flood then cmd +:+ " -f"
  else if truthy option then cmd +:+ " " +:+ py_str option
  else cmd.

Definition ping_check (self : NetworkInterface)
    (peer_ip count option flood : pyval) : M bool :=
  let cmd := ping_command self peer_ip count option flood in
  status <- process_system cmd true false ;;
  if negb (status =? 0)%Z then ret false else ret true.

(** [self.<attr>] for an attribute the instance does not have. *)
Definition NetworkInterface_missing {A} (attr : string) : M A :=
  raise (AttributeError attr).

(** With a remote session the method reads [self.session], an attribute
    that is looked up on the instance like any other; the instance has
    [remote_session]. *)
Definition get_link_status (self : NetworkInterface) : M pyval :=
  match remote_session self with
  | Some _ =>
      if bool_decide ("session" ∈ NetworkInterface_attributes)
      then raise TypeError
      else NetworkInterface_missing "session"
  | None =>
      text <- genio_read_file
                ("/sys/class/net/" +:+ name self +:+ "/operstate") ;;
      ret (PStr text)
  end.

(** [open(path, 'r').read()]; in this world the one way for it to fail is
    that the file is not there. *)
Definition open_read (path : string) : M string :=
  fun w =>
    match files w !! path with
    | Some text => (Return text, w)
    | None => (Raise (OtherException "FileNotFoundError" path), w)
    end.

(** The classes that [except OSError] catches. *)
Definition OSError_classes : list string :=
  ["OSError"; "IOError"; "EnvironmentError"; "BlockingIOError";
   "ChildProcessError"; "ConnectionError"; "BrokenPipeError";
   "ConnectionAbortedError"; "ConnectionRefusedError";
   "ConnectionResetError"; "FileExistsError"; "FileNotFoundError";
   "InterruptedError"; "IsADirectoryError"; "NotADirectoryError";
   "PermissionError"; "ProcessLookupError"; "TimeoutError"].

Definition get_hwaddr (self : NetworkInterface) : M pyval :=
  try_except
    (text <- open_read ("/sys/class/net/" +:+ name self +:+ "/address") ;;
     ret (PStr (strip is_space text)))
    (fun ex =>
       match ex with
       | OtherException cls _ =>
           if bool_decide (cls ∈ OSError_classes)
           then Some (raise (NWException
                               ("interface not found : " +:+ exn_str ex)))
           else None
       | _ => None
       end).

(** [self.<attr>()]: the call of a method of the class by its name, without
    arguments.  A name the instance does not have raises [AttributeError];
    an attribute that is no method, or a method that wants arguments, raises
    [TypeError].  [is_link_up] does not call itself and is left out. *)
Definition NetworkInterface_call (self : NetworkInterface) (attr : string)
    : M pyval :=
  if bool_decide (attr ∈ NetworkInterface_attributes) then
    if String.eqb attr "get_link_status" then get_link_status self
    else if String.eqb attr "get_hwaddr" then get_hwaddr self
    else if String.eqb attr "bring_up" then
      (b <- bring_up self ;; ret (PBool b))
    else if String.eqb attr "bring_down" then
      (b <- bring_down self ;; ret (PBool b))
    else if String.eqb attr "unset_ip" then (unset_ip self ;;; ret PNone)
    else raise TypeError
  else NetworkInterface_missing attr.

(** [v in l] for a list [l]. *)
Definition py_in_list (v : pyval) (l : list pyval) : bool :=
  existsb (py_eq v) l.

Definition is_link_up (self : NetworkInterface) : M bool :=
  state <- NetworkInterface_call self "get_link_state" ;;
  if py_in_list state [PStr "up"; PStr "UP"] then ret true else ret false.

(** A method without parameters, bound to its instance and called on
    [args]: any argument is one too many. *)
Definition bound_method {A} (inj : A -> pyval) (m : M A) (args : list pyval)
    : M pyval :=
  match args with
  | [] => x <- m ;; ret (inj x)
  | _ :: _ => raise TypeError
  end.

(** [v in text] for a [str] [text]: the left operand has to be a [str]. *)
Definition py_in_str (v : pyval) (text : string) : result bool :=
  match v with
  | PStr s => Return (str_contains s text)
  | _ => Raise TypeError
  end.

(** The two commands of [set_mtu]: the MTU is set, and [ip add show] is
    read back; the answer is the text read back. *)
Definition set_and_show_mtu (self : NetworkInterface) (mtu : pyval) : M string :=
  let cmd := "ip link set " +:+ name self +:+ " mtu " +:+ py_str mtu in
  let cmd_mtu := "ip add show " +:+ name self in
  match remote_session self with
  | Some session =>
      Session_cmd session cmd ;;; Session_cmd session cmd_mtu
  | None =>
      process_system cmd false false ;;;
      process_system_output cmd_mtu false false
  end.

(** The body of [set_mtu], with the callable that is handed to
    [wait.wait_for] as [link_up]. *)
Definition set_mtu_with (link_up : list pyval -> M pyval)
    (self : NetworkInterface) (mtu : pyval) : M bool :=
  try_except
    (mtu_value <- set_and_show_mtu self mtu ;;
     found <- lift (py_in_str mtu mtu_value) ;;
     if found then
       up <- wait_for link_up 120 [PStr (name self)] ;;
       if truthy up then ret true else ret false
     else ret false)
    (fun _ => Some (ret false)).

Definition set_mtu (self : NetworkInterface) (mtu : pyval) : M bool :=
  set_mtu_with (bound_method PBool (is_link_up self)) self mtu.

(** [v[k]] on a scalar: only a [str] can be indexed, and by an [int]. *)
Definition py_subscript (v k : pyval) : result pyval :=
  match v, k with
  | PStr s, PInt i =>
      let n := Z.of_nat (String.length s) in
      let i := if (i <? 0)%Z then (i + n)%Z else i in
      if ((0 <=? i) && (i <? n))%Z
      then Return (PStr (String.substring (Z.to_nat i) 1 s))
      else Raise IndexError
  | _, _ => Raise TypeError
  end.

(** The function ends without a [return] when the output is not empty, and
    then gives [None]. *)
Definition _get_interfce_details (self : NetworkInterface) (version : string)
    : M pyval :=
  let cmd := "ip -" +:+ version +:+ " -j address show " +:+ name self in
  out_value <-
    match remote_session self with
    | Some session => Session_cmd session cmd
    | None => process_system_output cmd false false
    end ;;
  output <- lift (json_loads env out_value) ;;
  if negb (json_truthy output) then ret (PBool false)
  else ret PNone.

(** [except (IndexError, KeyError): return False]. *)
Definition missing_address (ex : exn) : option (M pyval) :=
  match ex with
  | IndexError | KeyError _ => Some (ret (PBool false))
  | _ => None
  end.

(** [details['addr_info'][0][field]]. *)
Definition first_address (details : pyval) (field : string) : M pyval :=
  lift (addr_info <-? py_subscript details (PStr "addr_info") ;
        first <-? py_subscript addr_info (PInt 0) ;
        py_subscript first (PStr field))%result.

Definition get_ip_address (self : NetworkInterface) (version : pyval)
    : M pyval :=
  try_except
    (if py_eq version (PInt 4) then
       details <- _get_interfce_details self "4" ;;
       first_address details "local"
     else if py_eq version (PInt 4) then
       details <- _get_interfce_details self "6" ;;
       first_address details "local"
     else raise (NWException "Version not supported"))
    missing_address.

Definition get_inet_detail (self : NetworkInterface) (version : pyval)
    : M pyval :=
  try_except
    (if py_eq version (PInt 4) then
       details <- _get_interfce_details self "4" ;;
       first_address details "family"
     else if py_eq version (PInt 4) then
       details <- _get_interfce_details self "6" ;;
       first_address details "family"
     else raise (NWException "Version not supported"))
    missing_address.

Record Host := mkHost {
  host : pyval;
  port : pyval;
  username : pyval;
  key : pyval;
  password : pyval;
  session : option Session;
  interfaces : list NetworkInterface
}.

Definition set_session (self : Host) (s : option Session) : Host :=
  mkHost (host self) (port self) (username self) (key self) (password self)
         s (interfaces self).

Definition set_interfaces (self : Host) (l : list NetworkInterface) : Host :=
  mkHost (host self) (port self) (username self) (key self) (password self)
         (session self) l.

Definition _connect (self : Host) : M Host :=
  if truthy (host self) && truthy (port self) && truthy (username self) then
    try_except
      (s <- Session_new (host self) (port self) (username self) (key self)
                        (password self) ;;
       ret (set_session self (Some s)))
      (fun ex =>
         Some (raise (NWException
                        ("Could not connect to host: " +:+ exn_str ex))))
  else ret self.

Definition is_remote (self : Host) : bool :=
  match session self with
  | Some _ => true
  | None => false
  end.

(** [s.split(sep)] for a separator of one character. *)
Fixpoint split_char (sep : ascii) (s : string) : list string :=
  match s with
  | "" => [""]
  | String c r =>
      if Ascii.eqb c sep then "" :: split_char sep r
      else
        match split_char sep r with
        | piece :: pieces => String c piece :: pieces
        | [] => [String c ""]
        end
  end.

Definition _populate_interfaces (self : Host) : M Host :=
  let names := [] in
  names <-
    (if is_remote self then
       let cmd := "ls /sys/class/net" in
       try_except
         (match session self with
          | Some s =>
              out <- Session_cmd s cmd ;;
              ret (split_char "010" (strip is_space out))
          | None => raise (AttributeError "cmd")
          end)
         (fun _ => Some (ret names))
     else os_listdir "/sys/class/net") ;;
  ret (set_interfaces self
         (interfaces self ++
          map (fun name => mkNetworkInterface name (session self)) names)).

(** [Host(host, port, username, key, password)]. *)
Definition Host_init (host port username key password : pyval) : M Host :=
  let self := mkHost host port username key password None [] in
  self <- _connect self ;;
  _populate_interfaces self.

End Model.

(** ** Reference notions for the properties *)

(** The fields of a line once the Boot column is made explicit: a line
    without the [*] mark gets an empty Boot field. *)
Definition boot_column (fields : list string) : list string :=
  match fields with
  | device :: mark :: rest =>
      if String.eqb mark "*" then fields else device :: "" :: mark :: rest
  | _ => fields
  end.

(** The configuration file of an interface for a distribution family. *)
Definition config_path (distro ifname : string) : option string :=
  if String.eqb distro "rhel"
  then Some ("/etc/sysconfig/network-scripts/ifcfg-" +:+ ifname)
  else if String.eqb distro "SuSE"
  then Some ("/etc/sysconfig/network/ifcfg-" +:+ ifname)
  else None.

Definition backup_of (conf : string) : string := conf +:+ ".backup".

(** A host to run the definitions on: one disk [sda] with a bootable Linux
    partition and a swap partition, an interface [eth0] whose configuration
    file is in place, and commands that succeed. *)
Definition dq : string := String "034" "".

Definition lsblk_text : string :=
  "{" +:+ dq +:+ "blockdevices" +:+ dq +:+ ": [{" +:+ dq +:+ "name" +:+ dq +:+
  ": " +:+ dq +:+ "sda" +:+ dq +:+ "}]}".

Definition fdisk_text : list string :=
  [ "Disk /dev/sda: 20 GiB, 21474836480 bytes, 41943040 sectors" +:+ nl;
    "Device     Boot   Start      End  Sectors Size Id Type" +:+ nl;
    "/dev/sda1  *       2048  2099199  2097152   1G 83 Linux" +:+ nl;
    "/dev/sda2       2099200  6293503  4194304   2G 82 Linux swap / Solaris"
      +:+ nl ].

Definition demo_env : Env :=
  {| distro_name := "rhel";
     run_cmd := fun _ cmd _ =>
       if String.eqb cmd "lsblk --json" then Exited 0 lsblk_text
       else if String.eqb cmd "ip add show eth0"
       then Exited 0 "2: eth0: <BROADCAST,MULTICAST,UP> mtu 9000 qdisc mq"
       else if String.eqb cmd "ip -4 -j address show eth0" then Exited 0 "[]"
       else Exited 0 "";
     session_cmd := fun _ _ _ => Exited 0 "";
     session_open := fun _ _ _ _ _ _ => None;
     popen_lines := fun _ cmd =>
       if String.eqb cmd (fdisk_command "/dev/sda") then fdisk_text else [];
     listdir := fun _ path =>
       if String.eqb path "/sys/class/net" then Return ["lo"; "eth0"]
       else Raise (OtherException "FileNotFoundError" path);
     json_loads := fun text =>
       if String.eqb text lsblk_text
       then Return (JObj [("blockdevices", JArr [JObj [("name", JStr "sda")]])])
       else if String.eqb text "[]" then Return (JArr [])
       else Raise (OtherException "JSONDecodeError" text);
     json_repr := fun _ => "";
     wait_polls := 3 |}.

Definition eth0 : NetworkInterface := mkNetworkInterface "eth0" None.

Definition demo_world : World :=
  {| files :=
       {[ "/etc/sysconfig/network-scripts/ifcfg-eth0" := "BOOTPROTO=dhcp";
          "/sys/class/net/eth0/operstate" := "up" ]};
     history := [] |}.

(** The same host under a distribution that is not supported, where
    [ifdown] fails. *)
Definition ubuntu_env : Env :=
  {| distro_name := "Ubuntu";
     run_cmd := fun _ cmd _ =>
       if String.eqb cmd "ifdown eth0" then Exited 1 "" else Exited 0 "";
     session_cmd := session_cmd demo_env;
     session_open := session_open demo_env;
     popen_lines := popen_lines demo_env;
     listdir := listdir demo_env;
     json_loads := json_loads demo_env;
     json_repr := json_repr demo_env;
     wait_polls := wait_polls demo_env |}.

(** A host where every command succeeds and a backup is in place. *)
Definition backup_world : World :=
  {| files :=
       {[ "/etc/sysconfig/network-scripts/ifcfg-eth0.backup" := "BOOTPROTO=dhcp" ]};
     history := [] |}.

(** A distribution that is not supported, where the commands succeed. *)
Definition debian_env : Env :=
  {| distro_name := "debian";
     run_cmd := run_cmd demo_env;
     session_cmd := session_cmd demo_env;
     session_open := session_open demo_env;
     popen_lines := popen_lines demo_env;
     listdir := listdir demo_env;
     json_loads := json_loads demo_env;
     json_repr := json_repr demo_env;
     wait_polls := wait_polls demo_env |}.

(** [unset_ip] brings the interface down, then the unassigned [conf_file]
    raises, and the files are as before. *)
Definition unset_ip_unbound (env : Env) (self : NetworkInterface) (w : World)
    : Prop :=
  exists w',
    unset_ip env self w = (Raise (UnboundLocalError "conf_file"), w')
    /\ history w' = history w ++ [Ran ("ifdown " +:+ name self) true]
    /\ files w' = files w.

(** ** The rest of the two modules *)

Section Model_rest.

Variable env : Env.

(** [f.readlines()] on the text of a file: the lines, each with its newline;
    the text is as [read()] gives it, newlines already translated. *)
Fixpoint readlines (text : string) : list string :=
  match text with
  | "" => []
  | String c r =>
      if Ascii.eqb c "010" then String c "" :: readlines r
      else
        match readlines r with
        | line :: lines => String c line :: lines
        | [] => [String c ""]
        end
  end.

(** [open(path).readlines()]. *)
Definition open_readlines (path : string) : M (list string) :=
  fun w =>
    match files w !! path with
    | Some text => (Return (readlines text), w)
    | None => (Raise (OtherException "FileNotFoundError" path), w)
    end.

(** [s.split()]: the pieces between runs of white space, none of them
    empty. *)
Definition py_split (s : string) : list string :=
  List.filter (fun piece => negb (String.eqb piece "")) (re_split_ws s).

(** [re.sub(r'(nodev)?\s*', '', line)], from left to right: where the text
    goes on with [nodev] that word is dropped, white space is dropped, and
    any other character is kept.  [skip] counts the characters of a [nodev]
    still to drop. *)
Fixpoint sub_nodev_from (skip : nat) (line : string) : string :=
  match line with
  | "" => ""
  | String c r =>
      match skip with
      | S skip' => sub_nodev_from skip' r
      | O =>
          if String.prefix "nodev" line then sub_nodev_from 4 r
          else if is_space c then sub_nodev_from 0 r
          else String c (sub_nodev_from 0 r)
      end
  end.

Definition sub_nodev (line : string) : string := sub_nodev_from 0 line.

(** The answer is [list(filesystems)] for a [set]; its order is not fixed,
    and it is carried as the set of its elements. *)
Definition get_available_filesystems : M (gset string) :=
  proc_fs <- open_readlines "/proc/filesystems" ;;
  ret (foldl (fun filesystems proc_fs_line =>
                filesystems ∪ {[ sub_nodev proc_fs_line ]})
             (∅ : gset string) proc_fs).

(** [for mount_line in mounts.readlines(): ...]; a line that does not split
    into six pieces cannot be unpacked. *)
Fixpoint scan_mounts (mount_point : string) (mounts : list string)
    : result (option string) :=
  match mounts with
  | [] => Return None
  | mount_line :: rest =>
      match py_split mount_line with
      | [_; fs_file; fs_vfstype; _; _; _] =>
          if String.eqb fs_file mount_point then Return (Some fs_vfstype)
          else scan_mounts mount_point rest
      | _ => Raise (OtherException "ValueError" "unpack")
      end
  end.

Definition get_filesystem_type (mount_point : string) : M (option string) :=
  mounts <- open_readlines "/proc/mounts" ;;
  lift (scan_mounts mount_point mounts).

Definition set_hwaddr (self : NetworkInterface) (hwaddr : pyval) : M unit :=
  try_except
    (process_system env
       ("ip link set " +:+ name self +:+ " address " +:+ py_str hwaddr)
       false false ;;; ret tt)
    (fun ex =>
       Some (raise (NWException
                      ("Setting Mac address failed: " +:+ exn_str ex)))).

Definition add_hwaddr (self : NetworkInterface) (maddr : pyval) : M bool :=
  try_except
    (process_system env
       ("ip maddr add " +:+ py_str maddr +:+ " dev " +:+ name self)
       false false ;;; ret true)
    (fun ex =>
       Some (raise (NWException
                      ("Adding hw address fails: " +:+ exn_str ex)))).

Definition remove_hwaddr (self : NetworkInterface) (maddr : pyval) : M bool :=
  try_except
    (process_system env
       ("ip maddr del " +:+ py_str maddr +:+ " dev " +:+ name self)
       false false ;;; ret true)
    (fun ex => Some (raise (NWException ("ifdown fails: " +:+ exn_str ex)))).

End Model_rest.

(** What [set_ip] writes, by family. *)
Definition set_ip_text (distro : string) (self : NetworkInterface)
    (ipaddr netmask interface_type : pyval) : string :=
  if String.eqb distro "rhel"
  then rhel_conf self ipaddr netmask
         (if truthy interface_type then PStr "Ethernet" else interface_type)
  else suse_conf ipaddr netmask.

(** The files once [set_ip] has moved the configuration file away and
    written the new one. *)
Definition set_ip_files (conf old text : string) (fs : gmap string string)
    : gmap string string :=
  <[conf := text]> (<[backup_of conf := old]> (delete conf fs)).

(** A name of a filesystem as [/proc/filesystems] lists it: no white space
    in it, and no [nodev]. *)
Fixpoint no_space (s : string) : bool :=
  match s with
  | "" => true
  | String c r => negb (is_space c) && no_space r
  end.

Definition plain_name (s : string) : bool :=
  no_space s && negb (str_contains "nodev" s).

(** A line of [/proc/filesystems]: the [nodev] mark or not, a tab, the
    name. *)
Definition proc_fs_line (entry : bool * string) : string :=
  (if fst entry then "nodev" else "") +:+ String "009" (snd entry +:+ nl).

Fixpoint proc_fs_text (entries : list (bool * string)) : string :=
  match entries with
  | [] => ""
  | entry :: rest => proc_fs_line entry +:+ proc_fs_text rest
  end.

(** A line of [/proc/mounts]. *)
Definition mount_line_of (dev dir type opts : string) : string :=
  dev +:+ " " +:+ dir +:+ " " +:+ type +:+ " " +:+ opts +:+ " 0 0" +:+ nl.

Definition remote_eth0 : NetworkInterface :=
  mkNetworkInterface "eth0" (Some (mkSession (PStr "peer") (PInt 22) (PStr "root"))).

Definition proc_world : World :=
  {| files :=
       {[ "/proc/filesystems" :=
            proc_fs_text [(true, "sysfs"); (false, "ext4"); (true, "sysfs")];
          "/proc/mounts" :=
            mount_line_of "sysfs" "/sys" "sysfs" "rw" +:+
            mount_line_of "/dev/sda1" "/" "ext4" "rw,relatime" +:+
            mount_line_of "/dev/sda1" "/" "xfs" "rw" ]};
     history := [] |}.

(** A peer that answers [ls] with two names; one that answers nothing. *)
Definition peer_env : Env :=
  {| distro_name := "rhel";
     run_cmd := run_cmd demo_env;
     session_cmd := fun _ _ cmd =>
       if String.eqb cmd "ls /sys/class/net"
       then Exited 0 ("eth0" +:+ nl +:+ "lo" +:+ nl)
       else Exited 0 "";
     session_open := session_open demo_env;
     popen_lines := popen_lines demo_env;
     listdir := listdir demo_env;
     json_loads := json_loads demo_env;
     json_repr := json_repr demo_env;
     wait_polls := wait_polls demo_env |}.

Definition deaf_env : Env :=
  {| distro_name := "rhel";
     run_cmd := fun _ _ _ => Exited 1 "";
     session_cmd := fun _ _ _ => Failed (OtherException "SSHError" "closed");
     session_open := fun _ _ _ _ _ _ =>
       Some (OtherException "SSHError" "refused");
     popen_lines := popen_lines demo_env;
     listdir := listdir demo_env;
     json_loads := json_loads demo_env;
     json_repr := json_repr demo_env;
     wait_polls := wait_polls demo_env |}.

(** A line of [/proc/mounts] with six pieces that is for another mount
    point. *)
Definition mounts_elsewhere (mount_point mount_line : string) : bool :=
  match py_split mount_line with
  | [_; fs_file; _; _; _; _] => negb (String.eqb fs_file mount_point)
  | _ => false
  end.

(** An entry of [lsblk --json] that gives a device this name. *)
Definition named (disk : json) (n : string) : Prop :=
  json_getitem disk "name" = Return (JStr n).

(** A host whose fdisk prints a row cut short before a full one. *)
Definition odd_env : Env :=
  {| distro_name := "rhel";
     run_cmd := run_cmd demo_env;
     session_cmd := session_cmd demo_env;
     session_open := session_open demo_env;
     popen_lines := fun _ cmd =>
       if String.eqb cmd (fdisk_command "/dev/sdb")
       then [ "/dev/sdb1 2048 4095" +:+ nl;
              "/dev/sdb1  *  2048  2099199  2097152  1G 83 Linux" +:+ nl ]
       else [];
     listdir := listdir demo_env;
     json_loads := json_loads demo_env;
     json_repr := json_repr demo_env;
     wait_polls := wait_polls demo_env |}.

(** [/proc/mounts] with an empty line before the root. *)
Definition gap_world : World :=
  {| files :=
       {[ "/proc/mounts" :=
            mount_line_of "sysfs" "/sys" "sysfs" "rw" +:+ nl +:+
            mount_line_of "/dev/sda1" "/" "ext4" "rw,relatime" ]};
     history := [] |}.

(** A host where no command can be started, and a peer that takes the
    connection and then fails every command. *)
Definition broken_env : Env :=
  {| distro_name := "rhel";
     run_cmd := fun _ cmd _ => Failed (OtherException "FileNotFoundError" cmd);
     session_cmd := fun _ _ _ => Failed (OtherException "SSHError" "closed");
     session_open := session_open demo_env;
     popen_lines := popen_lines demo_env;
     listdir := listdir demo_env;
     json_loads := json_loads demo_env;
     json_repr := json_repr demo_env;
     wait_polls := wait_polls demo_env |}.

Fixpoint all_space (s : string) : bool :=
  match s with
  | "" => true
  | String c r => is_space c && all_space r
  end.

(** A host that has both the configuration file and a backup. *)
Definition both_world : World :=
  {| files :=
       {[ "/etc/sysconfig/network-scripts/ifcfg-eth0" := "A-active";
          "/etc/sysconfig/network-scripts/ifcfg-eth0.backup" := "B-backup" ]};
     history := [] |}.

(** No loss of what the two files held: every text that was in the
    configuration file or in its backup is still in one of the two. *)
Definition keeps_content (conf : string) (before after : gmap string string)
    : Prop :=
  forall p text,
    p = conf \/ p = backup_of conf ->
    before !! p = Some text ->
    after !! conf = Some text \/ after !! backup_of conf = Some text.

(** * Properties *)

(** ** Strings and loops *)

Lemma string_app_assoc (s1 s2 s3 : string) :
  s1 +:+ (s2 +:+ s3) = (s1 +:+ s2) +:+ s3.
Proof.
  induction s1 as [|c s1 IH]; [reflexivity|].
  change (String c (s1 +:+ (s2 +:+ s3)) = String c ((s1 +:+ s2) +:+ s3)).
  by rewrite IH.
Qed.

Lemma getitem_lookup {A} (l : list A) (i : nat) (x : A) :
  l !! i = Some x -> getitem l i = Return x.
Proof. intros H. unfold getitem. by rewrite H. Qed.

Lemma foldl_raise {Acc} (body : nat -> Acc -> result Acc) (e : exn) (l : list nat) :
  foldl (fun acc data => rbind acc (body data)) (Raise e) l = Raise e.
Proof. induction l as [|x l IH]; [reflexivity|]. exact IH. Qed.

(** A loop over [range] that reads [v[off + data]] and folds it into the
    accumulator is a fold over that slice of [v]. *)
Lemma for_range_slice {Acc} (f : Acc -> string -> Acc) (v xs : list string)
    (off lo : nat) (init : Acc) :
  (forall i, i < length xs -> v !! (off + (lo + i)) = xs !! i) ->
  for_range lo (lo + length xs)
    (fun data acc =>
       (item <-? getitem v (off + data) ; Return (f acc item))%result) init
  = Return (foldl f init xs).
Proof.
  unfold for_range. replace (lo + length xs - lo) with (length xs) by lia.
  revert lo init. induction xs as [|x xs IH]; intros lo init Hv; [reflexivity|].
  cbn [length seq foldl]. cbn [rbind].
  rewrite (getitem_lookup v (off + lo) x).
  2:{ specialize (Hv 0). cbn in Hv. rewrite Nat.add_0_r in Hv. apply Hv. lia. }
  cbn [rbind]. apply IH. intros i Hi.
  specialize (Hv (S i)). cbn in Hv.
  replace (off + (S lo + i)) with (off + (lo + S i)) by lia.
  apply Hv. lia.
Qed.

Lemma foldl_append_item (init xs : list string) :
  foldl (fun values item => values ++ [item]) init xs = init ++ xs.
Proof.
  revert init. induction xs as [|x xs IH]; intros init; cbn.
  - by rewrite app_nil_r.
  - rewrite IH. by rewrite <- app_assoc.
Qed.

Lemma foldl_join_blank (init : string) (xs : list string) :
  foldl (fun type_data item => type_data +:+ " " +:+ item) init xs
  = String.concat " " (init :: xs).
Proof.
  revert init. induction xs as [|x xs IH]; intros init; [reflexivity|].
  cbn [foldl]. rewrite IH.
  change (String.concat " " (init :: x :: xs))
    with (init +:+ " " +:+ String.concat " " (x :: xs)).
  destruct xs as [|y xs]; [reflexivity|].
  change (String.concat " " (x :: y :: xs))
    with (x +:+ " " +:+ String.concat " " (y :: xs)).
  change (String.concat " " ((init +:+ " " +:+ x) :: y :: xs))
    with ((init +:+ " " +:+ x) +:+ " " +:+ String.concat " " (y :: xs)).
  by rewrite !string_app_assoc.
Qed.

(** ** disk.py: the line of a partition *)

Lemma insert_boot_fields (fields : list string) :
  2 <= length fields ->
  insert_boot [] fields = Return (boot_column fields).
Proof.
  destruct fields as [|f0 [|f1 fs]]; cbn [length]; [lia | lia | intros _].
  unfold insert_boot, boot_column.
  rewrite (getitem_lookup _ 1 f1) by reflexivity. cbn [rbind].
  destruct (String.eqb f1 "*"); cbn [negb]; [reflexivity|].
  rewrite (getitem_lookup _ 0 f0) by reflexivity. cbn [rbind].
  pose proof (for_range_slice (fun values item => values ++ [item])
                (f0 :: f1 :: fs) (f1 :: fs) 0 1 []) as Hloop.
  cbn [length Nat.add] in Hloop. cbn [length].
  rewrite Hloop; [|intros i _; reflexivity].
  cbn [rbind]. by rewrite foldl_append_item.
Qed.

Lemma merge_type_fields (f0 f1 f2 f3 f4 f5 f6 ty : string)
    (overflow : list string) :
  merge_type (f0 :: f1 :: f2 :: f3 :: f4 :: f5 :: f6 :: ty :: overflow)
  = Return (f0 :: f1 :: f2 :: f3 :: f4 :: f5 :: f6
            :: strip is_blank (String.concat " " (ty :: overflow))
            :: overflow).
Proof.
  unfold merge_type. cbn [length].
  rewrite bool_decide_true by lia.
  rewrite (getitem_lookup _ 7 ty) by reflexivity. cbn [rbind].
  pose proof (for_range_slice
                (fun type_data item => type_data +:+ " " +:+ item)
                (f0 :: f1 :: f2 :: f3 :: f4 :: f5 :: f6 :: ty :: overflow)
                overflow 7 1 ty) as Hloop.
  replace (S (S (S (S (S (S (S (S (length overflow)))))))) - 7)
    with (1 + length overflow) by lia.
  rewrite Hloop; [|intros i _; reflexivity].
  cbn [rbind]. by rewrite foldl_join_blank.
Qed.

Lemma partition_of_line_fields (line : string)
    (dev boot start end_ sectors size id ty : string) (overflow : list string) :
  boot_column (re_split_ws line)
  = dev :: boot :: start :: end_ :: sectors :: size :: id :: ty :: overflow ->
  partition_of_line [] line
  = Return (mkPartitionInfo dev boot start end_ sectors size id
              (strip is_blank (String.concat " " (ty :: overflow)))).
Proof.
  intros Hfields. unfold partition_of_line.
  rewrite insert_boot_fields.
  2:{ destruct (re_split_ws line) as [|f0 [|f1 fs]];
        [discriminate Hfields | discriminate Hfields | cbn; lia]. }
  cbn [rbind]. rewrite Hfields, merge_type_fields. reflexivity.
Qed.

(** ** disk.py: [get_partition_info] and [is_linux_fs_type] *)

Lemma scan_fdisk_lines_skip (device : string) (values before rest : list string) :
  Forall (fun line => startswith line device = false) before ->
  scan_fdisk_lines device values (before ++ rest)
  = scan_fdisk_lines device values rest.
Proof.
  induction 1 as [|line before Hline _ IH]; [reflexivity|].
  cbn [app scan_fdisk_lines]. by rewrite Hline.
Qed.

Lemma scan_fdisk_lines_none (device : string) (values lines : list string) :
  Forall (fun line => startswith line device = false) lines ->
  scan_fdisk_lines device values lines = Return None.
Proof.
  intros H. rewrite <- (app_nil_r lines).
  by rewrite scan_fdisk_lines_skip.
Qed.

(** Once the device is known not to be a whole disk, the answer is the scan
    of what fdisk prints for the parent disk. *)
Lemma get_partition_info_scan (env : Env) (device : string) (w w1 : World)
    (disks : list string) :
  get_disks env w = (Return disks, w1) ->
  device ∉ disks ->
  get_partition_info env device w
  = (scan_fdisk_lines device []
       (popen_lines env w1 (fdisk_command (rstrip is_digit device))),
     log_event (Popen (fdisk_command (rstrip is_digit device))) w1).
Proof.
  intros Hdisks Hnot. unfold get_partition_info, bind.
  rewrite Hdisks. by rewrite bool_decide_false.
Qed.

Lemma get_partition_info_whole_disk (env : Env) (device : string)
    (w w1 : World) (disks : list string) :
  get_disks env w = (Return disks, w1) ->
  device ∈ disks ->
  get_partition_info env device w
  = (Raise (DiskUtilsError "provided disk partition not disk"), w1).
Proof.
  intros Hdisks Hin. unfold get_partition_info, bind.
  rewrite Hdisks. by rewrite bool_decide_true.
Qed.

(** C5: for a device that is not a whole disk, the first line of the fdisk
    output that starts with the device string is taken, whatever follows it;
    its fields, with the Boot column made explicit, give the record with the
    keys Device, Boot, Start, End, Sectors, Size, Id and Type, and every
    field from the eighth on is joined with single blanks into Type. *)
Theorem get_partition_info_first_match (env : Env) (device : string)
    (w w1 : World) (disks before after : list string) (line : string)
    (dev boot start end_ sectors size id ty : string)
    (overflow : list string) :
  get_disks env w = (Return disks, w1) ->
  device ∉ disks ->
  popen_lines env w1 (fdisk_command (rstrip is_digit device))
  = before ++ line :: after ->
  Forall (fun l => startswith l device = false) before ->
  startswith line device = true ->
  boot_column (re_split_ws line)
  = dev :: boot :: start :: end_ :: sectors :: size :: id :: ty :: overflow ->
  fst (get_partition_info env device w)
  = Return (Some {| Device := dev; Boot := boot; Start := start;
                    End_ := end_; Sectors := sectors; Size := size; Id := id;
                    Type_ := strip is_blank
                               (String.concat " " (ty :: overflow)) |}).
Proof.
  intros Hdisks Hnot Hlines Hbefore Hline Hfields.
  rewrite (get_partition_info_scan env device w w1 disks Hdisks Hnot).
  cbn [fst]. rewrite Hlines, scan_fdisk_lines_skip by assumption.
  cbn [scan_fdisk_lines]. rewrite Hline. cbn [negb].
  by rewrite (partition_of_line_fields line _ _ _ _ _ _ _ _ _ Hfields).
Qed.

(** C10: for a device that is not a whole disk, when no line of the fdisk
    output starts with the device string the function runs to its end and
    gives [None]; no [DiskUtilsError] is raised. *)
Theorem get_partition_info_no_match (env : Env) (device : string)
    (w w1 : World) (disks : list string) :
  get_disks env w = (Return disks, w1) ->
  device ∉ disks ->
  Forall (fun line => startswith line device = false)
         (popen_lines env w1 (fdisk_command (rstrip is_digit device))) ->
  fst (get_partition_info env device w) = Return None.
Proof.
  intros Hdisks Hnot Hlines.
  rewrite (get_partition_info_scan env device w w1 disks Hdisks Hnot).
  cbn [fst]. by apply scan_fdisk_lines_none.
Qed.

(** What [is_linux_fs_type] gives on each answer of [get_partition_info]. *)
Lemma is_linux_fs_type_cases (env : Env) (device : string) (w : World) :
  is_linux_fs_type env device w
  = match get_partition_info env device w with
    | (Return (Some info), w') =>
        (Return (py_eq (PStr (Type_ info)) (PInt 83)), w')
    | (Return None, w') => (Raise TypeError, w')
    | (Raise e, w') => (Raise e, w')
    end.
Proof.
  unfold is_linux_fs_type, bind.
  by destruct (get_partition_info env device w) as [[[info|]|e] w'].
Qed.

(** C4: [is_linux_fs_type(device)] returns [True] exactly when
    [get_partition_info(device)] returns a record whose Type equals, by
    [==], the integer 83; and on every record it returns the truth value of
    that comparison. *)
Theorem is_linux_fs_type_iff_type_83 (env : Env) (device : string) (w : World) :
  (fst (is_linux_fs_type env device w) = Return true
   <-> exists info,
         fst (get_partition_info env device w) = Return (Some info)
         /\ py_eq (PStr (Type_ info)) (PInt 83) = true)
  /\ (forall info,
        fst (get_partition_info env device w) = Return (Some info) ->
        fst (is_linux_fs_type env device w)
        = Return (py_eq (PStr (Type_ info)) (PInt 83))).
Proof.
  rewrite is_linux_fs_type_cases.
  destruct (get_partition_info env device w) as [[[info|]|e] w']; cbn [fst].
  - split; [split|].
    + intros H. exists info. split; [reflexivity | congruence].
    + intros (info' & Hinfo & H). congruence.
    + intros info' [= <-]. reflexivity.
  - split; [split|]; [discriminate | by intros (info' & [=] & _) | by intros ? [=]].
  - split; [split|]; [discriminate | by intros (info' & [=] & _) | by intros ? [=]].
Qed.

(** The Type of a record is text, and text never equals a number: the
    function has no way to answer [True]. *)
Lemma is_linux_fs_type_never_true (env : Env) (device : string) (w : World) :
  fst (is_linux_fs_type env device w) <> Return true.
Proof.
  rewrite is_linux_fs_type_cases.
  destruct (get_partition_info env device w) as [[[info|]|e] w']; cbn; congruence.
Qed.

Lemma demo_get_disks :
  get_disks demo_env demo_world
  = (Return ["/dev/sda"], log_event (Ran "lsblk --json" false) demo_world).
Proof. reflexivity. Qed.

Lemma get_partition_info_first_match_witness :
  fst (get_partition_info demo_env "/dev/sda2" demo_world)
  = Return (Some {| Device := "/dev/sda2"; Boot := ""; Start := "2099200";
                    End_ := "6293503"; Sectors := "4194304"; Size := "2G";
                    Id := "82"; Type_ := "Linux swap / Solaris" |}).
Proof.
  apply (get_partition_info_first_match demo_env "/dev/sda2" demo_world
           (log_event (Ran "lsblk --json" false) demo_world) ["/dev/sda"]
           (take 3 fdisk_text) [] (fdisk_text !!! 3)
           "/dev/sda2" "" "2099200" "6293503" "4194304" "2G" "82" "Linux"
           ["swap"; "/"; "Solaris"; ""]).
  - reflexivity.
  - vm_compute. intros H. inversion H as [|? ? ? H']; subst; inversion H'.
  - reflexivity.
  - vm_compute. repeat constructor.
  - reflexivity.
  - reflexivity.
Defined.

Lemma get_partition_info_no_match_witness :
  fst (get_partition_info demo_env "/dev/sda3" demo_world) = Return None.
Proof.
  apply (get_partition_info_no_match demo_env "/dev/sda3" demo_world
           (log_event (Ran "lsblk --json" false) demo_world) ["/dev/sda"]).
  - reflexivity.
  - vm_compute. intros H. inversion H as [|? ? ? H']; subst; inversion H'.
  - vm_compute. repeat constructor.
Defined.

Example is_linux_fs_type_linux_partition :
  fst (is_linux_fs_type demo_env "/dev/sda1" demo_world) = Return false.
Proof. reflexivity. Qed.

Example get_partition_info_short_line :
  partition_of_line [] ("/dev/sda1 2048 4095" +:+ nl) = Raise IndexError.
Proof. reflexivity. Qed.

(** ** Running commands *)

Lemma process_run_exited (env : Env) (cmd : string) (ignore_status sudo : bool)
    (w : World) (status : Z) (out : string) :
  run_cmd env w cmd sudo = Exited status out ->
  process_run env cmd ignore_status sudo w
  = (if negb ignore_status && negb (status =? 0)%Z
     then Raise (CmdError ("Command '" +:+ cmd +:+ "' failed"))
     else Return (status, out),
     log_event (Ran cmd sudo) w).
Proof.
  intros Hrun. unfold process_run. rewrite Hrun.
  by destruct (negb ignore_status && negb (status =? 0)%Z).
Qed.

Lemma process_system_exited (env : Env) (cmd : string)
    (ignore_status sudo : bool) (w : World) (status : Z) (out : string) :
  run_cmd env w cmd sudo = Exited status out ->
  process_system env cmd ignore_status sudo w
  = (if negb ignore_status && negb (status =? 0)%Z
     then Raise (CmdError ("Command '" +:+ cmd +:+ "' failed"))
     else Return status,
     log_event (Ran cmd sudo) w).
Proof.
  intros Hrun. unfold process_system, bind.
  rewrite (process_run_exited _ _ _ _ _ _ _ Hrun).
  by destruct (negb ignore_status && negb (status =? 0)%Z).
Qed.

(** Running a command leaves the files alone. *)
Lemma process_system_files (env : Env) (cmd : string)
    (ignore_status sudo : bool) (w : World) :
  files (snd (process_system env cmd ignore_status sudo w)) = files w
  /\ history (snd (process_system env cmd ignore_status sudo w))
     = history w ++ [Ran cmd sudo].
Proof.
  unfold process_system, bind, process_run.
  destruct (run_cmd env w cmd sudo) as [status out|e]; [|by split].
  by destruct (negb ignore_status && negb (status =? 0)%Z).
Qed.

(** ** configure_network.py: link state *)

Lemma get_link_state_not_an_attribute :
  "get_link_state" ∉ NetworkInterface_attributes.
Proof. by apply (bool_decide_unpack _). Qed.

Lemma NetworkInterface_call_missing (env : Env) (self : NetworkInterface)
    (attr : string) (w : World) :
  attr ∉ NetworkInterface_attributes ->
  NetworkInterface_call env self attr w = (Raise (AttributeError attr), w).
Proof.
  intros H. unfold NetworkInterface_call. by rewrite bool_decide_false.
Qed.

(** C1: whatever operstate holds, [is_link_up] does not return: it calls
    [self.get_link_state()], which the class does not define (the method
    above it is [get_link_status]), and the lookup raises. *)
Theorem is_link_up_raises (env : Env) (self : NetworkInterface) (w : World) :
  is_link_up env self w = (Raise (AttributeError "get_link_state"), w).
Proof.
  unfold is_link_up, bind.
  by rewrite (NetworkInterface_call_missing env self "get_link_state" w
                get_link_state_not_an_attribute).
Qed.

Example is_link_up_operstate_up :
  files demo_world !! "/sys/class/net/eth0/operstate" = Some "up"
  /\ fst (is_link_up demo_env eth0 demo_world)
     = Raise (AttributeError "get_link_state").
Proof. split; reflexivity. Qed.

(** The method that does exist reads the file on the local host, and on a
    remote one raises as well, on [self.session]. *)
Lemma get_link_status_local (self : NetworkInterface) (w : World)
    (text : string) :
  remote_session self = None ->
  files w !! ("/sys/class/net/" +:+ name self +:+ "/operstate") = Some text ->
  get_link_status self w = (Return (PStr text), w).
Proof.
  intros Hlocal Hfile. unfold get_link_status, bind, genio_read_file.
  by rewrite Hlocal, Hfile.
Qed.

Lemma get_link_status_remote (self : NetworkInterface) (w : World)
    (s : Session) :
  remote_session self = Some s ->
  get_link_status self w = (Raise (AttributeError "session"), w).
Proof. intros Hremote. unfold get_link_status. by rewrite Hremote. Qed.

(** ** configure_network.py: addresses *)

(** Neither answer of [_get_interfce_details] can be indexed. *)
Lemma first_address_of_details (details : pyval) (field : string) (w : World) :
  details = PBool false \/ details = PNone ->
  first_address details field w = (Raise TypeError, w).
Proof. by intros [-> | ->]. Qed.

Lemma _get_interfce_details_local (env : Env) (self : NetworkInterface)
    (version out : string) (j : json) (w : World) :
  remote_session self = None ->
  run_cmd env w ("ip -" +:+ version +:+ " -j address show " +:+ name self) false
  = Exited 0 out ->
  json_loads env out = Return j ->
  exists details,
    (details = PBool false \/ details = PNone)
    /\ _get_interfce_details env self version w
       = (Return details,
          log_event (Ran ("ip -" +:+ version +:+ " -j address show "
                          +:+ name self) false) w).
Proof.
  intros Hlocal Hrun Hjson.
  unfold _get_interfce_details, process_system_output, process_run, lift, bind.
  rewrite Hlocal. cbv beta zeta. rewrite Hrun. cbn. rewrite Hjson.
  destruct (json_truthy j); cbn; eauto.
Qed.

(** C2: version 6 takes the last branch of both functions, since the second
    test is again [version == 4], and gets the error meant for unsupported
    versions. *)
Theorem get_ip_address_version_6 (env : Env) (self : NetworkInterface)
    (w : World) :
  get_ip_address env self (PInt 6) w
  = (Raise (NWException "Version not supported"), w)
  /\ get_inet_detail env self (PInt 6) w
     = (Raise (NWException "Version not supported"), w).
Proof. split; reflexivity. Qed.

(** With version 4 the answer of [_get_interfce_details] is indexed at once;
    when the command succeeds the [TypeError] of that leaves the function,
    since only [IndexError] and [KeyError] are turned into [False]. *)
Lemma get_ip_address_version_4 (env : Env) (self : NetworkInterface)
    (out : string) (j : json) (w : World) :
  remote_session self = None ->
  run_cmd env w ("ip -4 -j address show " +:+ name self) false = Exited 0 out ->
  json_loads env out = Return j ->
  fst (get_ip_address env self (PInt 4) w) = Raise TypeError
  /\ fst (get_inet_detail env self (PInt 4) w) = Raise TypeError.
Proof.
  intros Hlocal Hrun Hjson.
  destruct (_get_interfce_details_local env self "4" out j w Hlocal Hrun Hjson)
    as (details & Hd & Heq).
  assert (Hbody : forall field,
    (details <- _get_interfce_details env self "4" ;;
     first_address details field) w
    = (Raise TypeError,
       log_event (Ran ("ip -4 -j address show " +:+ name self) false) w)).
  { intros field. unfold bind. rewrite Heq.
    by apply first_address_of_details. }
  split.
  - change (get_ip_address env self (PInt 4) w)
      with (try_except
              (details <- _get_interfce_details env self "4" ;;
               first_address details "local") missing_address w).
    unfold try_except. by rewrite Hbody.
  - change (get_inet_detail env self (PInt 4) w)
      with (try_except
              (details <- _get_interfce_details env self "4" ;;
               first_address details "family") missing_address w).
    unfold try_except. by rewrite Hbody.
Qed.

Example get_ip_address_no_address :
  json_loads demo_env "[]" = Return (JArr [])
  /\ fst (get_ip_address demo_env eth0 (PInt 4) demo_world) = Raise TypeError.
Proof. split; reflexivity. Qed.

(** ** configure_network.py: ping *)

(** C6: when the ping command runs and exits, [ping_check] returns [True]
    for status zero and [False] for any other status, whatever [option] and
    [flood] are; the status never raises. *)
Theorem ping_check_exit_status (env : Env) (self : NetworkInterface)
    (peer_ip count option flood : pyval) (w : World) (status : Z)
    (out : string) :
  run_cmd env w (ping_command self peer_ip count option flood) false
  = Exited status out ->
  fst (ping_check env self peer_ip count option flood w)
  = Return (status =? 0)%Z.
Proof.
  intros Hrun. unfold ping_check.
  cbv zeta. unfold bind. rewrite (process_system_exited _ _ _ _ _ _ _ Hrun).
  cbn. by destruct (status =? 0)%Z.
Qed.

Lemma ping_check_exit_status_witness :
  fst (ping_check demo_env eth0 (PStr "192.168.0.2") (PInt 5) PNone
         (PBool true) demo_world)
  = Return true.
Proof.
  apply (ping_check_exit_status demo_env eth0 (PStr "192.168.0.2") (PInt 5)
           PNone (PBool true) demo_world 0 "").
  reflexivity.
Defined.

Example ping_command_flood :
  ping_command eth0 (PStr "192.168.0.2") (PInt 5) (PStr "-s 100") (PBool true)
  = "ping -I eth0 192.168.0.2 -c 5 -f".
Proof. reflexivity. Qed.

Example ping_command_option :
  ping_command eth0 (PStr "192.168.0.2") (PInt 5) (PStr "-s 100") (PBool false)
  = "ping -I eth0 192.168.0.2 -c 5 -s 100".
Proof. reflexivity. Qed.

(** ** configure_network.py: Host *)

(** C9: with a falsy host, port or username no session is opened and nothing
    is raised: the host is left as it was, the session is absent,
    [is_remote()] is [False], and the interfaces are those that the local
    listing of the directory names, none of them bound to a session. *)
Theorem Host_init_without_session (env : Env)
    (host port username key password : pyval) (w : World)
    (names : list string) :
  truthy host = false \/ truthy port = false \/ truthy username = false ->
  listdir env w "/sys/class/net" = Return names ->
  exists self,
    Host_init env host port username key password w = (Return self, w)
    /\ session self = None
    /\ is_remote self = false
    /\ interfaces self = map (fun n => mkNetworkInterface n None) names.
Proof.
  intros Hfalsy Hnames.
  assert (truthy host && truthy port && truthy username = false) as Hcond.
  { destruct Hfalsy as [-> | [-> | ->]]; [reflexivity| |];
      by rewrite ?andb_false_r. }
  eexists. unfold Host_init, _connect, _populate_interfaces, bind.
  cbn. rewrite Hcond. cbn. unfold os_listdir. rewrite Hnames.
  repeat split.
Qed.

Lemma Host_init_without_session_witness :
  exists self,
    Host_init demo_env PNone (PInt 22) PNone PNone PNone demo_world
    = (Return self, demo_world)
    /\ session self = None
    /\ is_remote self = false
    /\ interfaces self
       = map (fun n => mkNetworkInterface n None) ["lo"; "eth0"].
Proof.
  apply (Host_init_without_session demo_env PNone (PInt 22) PNone PNone PNone
           demo_world ["lo"; "eth0"]).
  - left. reflexivity.
  - reflexivity.
Defined.

(** ** configure_network.py: MTU *)

(** Nothing leaves the [try] of [set_mtu] as an exception. *)
Lemma set_mtu_with_returns (env : Env) (link_up : list pyval -> M pyval)
    (self : NetworkInterface) (mtu : pyval) (w : World) :
  exists b w', set_mtu_with env link_up self mtu w = (Return b, w').
Proof.
  unfold set_mtu_with, try_except.
  match goal with |- context [match ?body w with _ => _ end] =>
    destruct (body w) as [[b|e] w'] end; cbn; eauto.
Qed.

(** [True] is returned on one path only: the text read back contains the
    MTU, and the wait on [link_up] ended with a true answer. *)
Lemma set_mtu_with_true (env : Env) (link_up : list pyval -> M pyval)
    (self : NetworkInterface) (mtu : pyval) (w w' : World) :
  set_mtu_with env link_up self mtu w = (Return true, w') ->
  exists text w1 up,
    set_and_show_mtu env self mtu w = (Return text, w1)
    /\ py_in_str mtu text = Return true
    /\ wait_for env link_up 120 [PStr (name self)] w1 = (Return up, w')
    /\ truthy up = true.
Proof.
  unfold set_mtu_with, try_except, bind, lift.
  destruct (set_and_show_mtu env self mtu w) as [[text|e] w1];
    [|cbn; intros [=]].
  destruct (py_in_str mtu text) as [[|]|e] eqn:Hin; [| |];
    try (cbn; intros [=]; fail).
  destruct (wait_for env link_up 120 [PStr (name self)] w1)
    as [[up|e] w2] eqn:Hwait; [|cbn; intros [=]].
  destruct (truthy up) eqn:Hup; cbn; intros [=]; subst.
  by exists text, w1, up.
Qed.

(** A wait on [is_link_up] never ends with a true answer: the call is made
    with the interface name as an argument that the method does not take. *)
Lemma wait_for_is_link_up (env : Env) (self : NetworkInterface)
    (args : list pyval) (w : World) :
  args <> [] ->
  wait_for env (bound_method PBool (is_link_up env self)) 120 args w
  = (if bool_decide (wait_polls env = 0) then Return PNone else Raise TypeError,
     w).
Proof.
  intros Hargs. unfold wait_for.
  destruct (wait_polls env) as [|polls]; [reflexivity|].
  destruct args as [|a args]; [done|]. reflexivity.
Qed.

(** C3: [set_mtu] always returns a boolean, whatever is raised on the way;
    and it returns [True] only if the text read back by [ip add show]
    contains the MTU and the wait for the link, bounded by the polls that
    fit in the 120 seconds, ended with a true answer. *)
Theorem set_mtu_true_only_if (env : Env) (self : NetworkInterface)
    (mtu : pyval) (w : World) :
  exists b w',
    set_mtu env self mtu w = (Return b, w')
    /\ (b = true ->
        exists text w1 up,
          set_and_show_mtu env self mtu w = (Return text, w1)
          /\ py_in_str mtu text = Return true
          /\ wait_for env (bound_method PBool (is_link_up env self)) 120
               [PStr (name self)] w1 = (Return up, w')
          /\ truthy up = true).
Proof.
  destruct (set_mtu_with_returns env (bound_method PBool (is_link_up env self))
              self mtu w) as (b & w' & Heq).
  exists b, w'. split; [exact Heq|].
  intros ->. by apply set_mtu_with_true.
Qed.

(** On this class the second condition is never met, so that [set_mtu]
    answers [False] on every path. *)
Lemma set_mtu_false (env : Env) (self : NetworkInterface) (mtu : pyval)
    (w : World) :
  fst (set_mtu env self mtu w) = Return false.
Proof.
  destruct (set_mtu_with_returns env (bound_method PBool (is_link_up env self))
              self mtu w) as (b & w' & Heq).
  unfold set_mtu. rewrite Heq. cbn. destruct b; [|reflexivity].
  apply set_mtu_with_true in Heq as (text & w1 & up & _ & _ & Hwait & Hup).
  rewrite wait_for_is_link_up in Hwait by done.
  destruct (bool_decide (wait_polls env = 0)); [|discriminate Hwait].
  injection Hwait as <- _. discriminate Hup.
Qed.

(** With a callable that reports the link up, the body does answer [True]. *)
Example set_mtu_with_link_up :
  fst (set_mtu_with demo_env (fun _ => ret (PBool true)) eth0 (PStr "9000")
         demo_world) = Return true
  /\ fst (set_mtu_with demo_env (fun _ => ret (PBool true)) eth0 (PStr "1500")
            demo_world) = Return false
  /\ fst (set_mtu_with demo_env (fun _ => ret (PBool true)) eth0 (PInt 9000)
            demo_world) = Return false.
Proof. repeat split. Qed.

(** ** configure_network.py: configuration files *)

Lemma string_length_app (s1 s2 : string) :
  String.length (s1 +:+ s2) = String.length s1 + String.length s2.
Proof.
  induction s1 as [|c s1 IH]; [reflexivity|].
  change (S (String.length (s1 +:+ s2)) = S (String.length s1 + String.length s2)).
  by rewrite IH.
Qed.

Lemma backup_of_ne (conf : string) : conf <> backup_of conf.
Proof.
  intros H. apply (f_equal String.length) in H.
  unfold backup_of in H. rewrite string_length_app in H. cbn in H. lia.
Qed.

Lemma bring_up_returns (env : Env) (self : NetworkInterface) (w w' : World)
    (b : bool) :
  bring_up env self w = (Return b, w') -> files w' = files w.
Proof.
  unfold bring_up, try_except, bind.
  pose proof (process_system_files env ("ifup " +:+ name self) false true w)
    as [Hfiles _].
  destruct (process_system env ("ifup " +:+ name self) false true w)
    as [[status|e] w1]; cbn in *.
  - intros [= _ <-]. exact Hfiles.
  - destruct e; cbn; intros [=].
Qed.

Lemma bring_down_returns (env : Env) (self : NetworkInterface) (w w' : World)
    (b : bool) :
  bring_down env self w = (Return b, w') -> files w' = files w.
Proof.
  unfold bring_down, try_except, bind.
  pose proof (process_system_files env ("ifdown " +:+ name self) false true w)
    as [Hfiles _].
  destruct (process_system env ("ifdown " +:+ name self) false true w)
    as [[status|e] w1]; cbn in *.
  - intros [= _ <-]. exact Hfiles.
  - intros [=].
Qed.

Lemma _move_config_file_returns (self : NetworkInterface)
    (src dest : string) (w w' : World) :
  _move_config_file self src dest w = (Return tt, w') ->
  exists text,
    files w !! src = Some text
    /\ files w' = <[dest := text]> (delete src (files w)).
Proof.
  unfold _move_config_file, bind, os_path_exists, shutil_move.
  destruct (files w !! src) as [text|] eqn:Hsrc.
  - rewrite bool_decide_true by eauto. rewrite Hsrc.
    intros [= <-]. by exists text.
  - rewrite bool_decide_false by (intros [? ?]; discriminate).
    cbn. intros [=].
Qed.

(** When [set_ip] returns, the interface had a configuration file for the
    family of the host; that file is now the backup, and a new file is in
    its place. *)
Lemma set_ip_returns (env : Env) (self : NetworkInterface)
    (ipaddr netmask interface_type : pyval) (w w1 : World) :
  set_ip env self ipaddr netmask interface_type w = (Return tt, w1) ->
  exists conf text written,
    config_path (distro_name env) (name self) = Some conf
    /\ files w !! conf = Some text
    /\ files w1
       = <[conf := written]>
           (<[backup_of conf := text]> (delete conf (files w))).
Proof.
  unfold set_ip, config_path, distro_detect_name, write_file, ret, bind.
  destruct (String.eqb (distro_name env) "rhel").
  - destruct (_move_config_file self _ _ w) as [[[]|e] w0] eqn:Hmove;
      [|intros [=]].
    apply _move_config_file_returns in Hmove as (text & Hsrc & Hw0).
    match goal with |- context [bring_up env self ?w2] =>
      destruct (bring_up env self w2) as [[b|e] w3] eqn:Hup end;
      [|intros [=]].
    intros [= <-]. apply bring_up_returns in Hup. cbn in Hup.
    eexists _, text, _. split; [reflexivity|]. split; [exact Hsrc|].
    rewrite Hup, Hw0. reflexivity.
  - destruct (String.eqb (distro_name env) "SuSE"); [|intros [=]].
    destruct (_move_config_file self _ _ w) as [[[]|e] w0] eqn:Hmove;
      [|intros [=]].
    apply _move_config_file_returns in Hmove as (text & Hsrc & Hw0).
    match goal with |- context [bring_up env self ?w2] =>
      destruct (bring_up env self w2) as [[b|e] w3] eqn:Hup end;
      [|intros [=]].
    intros [= <-]. apply bring_up_returns in Hup. cbn in Hup.
    eexists _, text, _. split; [reflexivity|]. split; [exact Hsrc|].
    rewrite Hup, Hw0. reflexivity.
Qed.

(** The path that [unset_ip] has in [conf_file] when it comes to use it. *)
Lemma unset_ip_conf_file (distro ifname : string) :
  (if String.eqb distro "SuSE"
   then Some ("/etc/sysconfig/network/ifcfg-" +:+ ifname)
   else if String.eqb distro "rhel"
        then Some ("/etc/sysconfig/network-scripts/ifcfg-" +:+ ifname)
        else None)
  = config_path distro ifname.
Proof.
  unfold config_path.
  destruct (String.eqb distro "rhel") eqn:Hrhel; [|reflexivity].
  apply String.eqb_eq in Hrhel as ->. reflexivity.
Qed.

Lemma unset_ip_steps (env : Env) (self : NetworkInterface) (w : World) :
  unset_ip env self w
  = (bring_down env self ;;;
     match config_path (distro_name env) (name self) with
     | None => raise (UnboundLocalError "conf_file")
     | Some conf_file => _move_config_file self (conf_file +:+ ".backup") conf_file
     end) w.
Proof.
  unfold unset_ip, distro_detect_name, ret, bind.
  by rewrite <- unset_ip_conf_file.
Qed.

(** When [unset_ip] returns, there was a backup, and it is now the
    configuration file. *)
Lemma unset_ip_returns (env : Env) (self : NetworkInterface) (w w1 : World) :
  unset_ip env self w = (Return tt, w1) ->
  exists conf text,
    config_path (distro_name env) (name self) = Some conf
    /\ files w !! backup_of conf = Some text
    /\ files w1 = <[conf := text]> (delete (backup_of conf) (files w)).
Proof.
  rewrite unset_ip_steps. unfold bind.
  destruct (bring_down env self w) as [[b|e] w0] eqn:Hdown; [|intros [=]].
  apply bring_down_returns in Hdown.
  destruct (config_path (distro_name env) (name self)) as [conf|];
    [|intros [=]].
  intros Hmove.
  apply _move_config_file_returns in Hmove as (text & Hsrc & Hw1).
  exists conf, text. rewrite Hdown in Hsrc, Hw1. by repeat split.
Qed.

(** [set_ip], then [unset_ip]: the configuration file that was there at
    first is there again with its text, after having been the backup in
    between; no backup is left, and no other file has changed. *)
Lemma set_ip_then_unset_ip (env : Env) (self : NetworkInterface)
    (ipaddr netmask interface_type : pyval) (w w1 w2 : World) :
  set_ip env self ipaddr netmask interface_type w = (Return tt, w1) ->
  unset_ip env self w1 = (Return tt, w2) ->
  exists conf original,
    config_path (distro_name env) (name self) = Some conf
    /\ files w !! conf = Some original
    /\ files w1 !! backup_of conf = Some original
    /\ files w2 !! conf = Some original
    /\ files w2 !! backup_of conf = None
    /\ (forall p, p <> conf -> p <> backup_of conf ->
                  files w2 !! p = files w !! p).
Proof.
  intros Hset Hunset.
  apply set_ip_returns in Hset as (conf & original & written & Hconf & Hw & Hw1).
  apply unset_ip_returns in Hunset as (conf' & text & Hconf' & Hbak & Hw2).
  rewrite Hconf in Hconf'. injection Hconf' as <-.
  pose proof (backup_of_ne conf) as Hne.
  assert (files w1 !! backup_of conf = Some original) as Hbak1.
  { rewrite Hw1. rewrite lookup_insert_ne by done. by rewrite lookup_insert_eq. }
  rewrite Hbak1 in Hbak. injection Hbak as <-.
  exists conf, original. repeat split; try done.
  - rewrite Hw2. by rewrite lookup_insert_eq.
  - rewrite Hw2. rewrite lookup_insert_ne by done. by rewrite lookup_delete_eq.
  - intros p Hp Hpb. rewrite Hw2, Hw1.
    rewrite lookup_insert_ne by done. rewrite lookup_delete_ne by done.
    rewrite !lookup_insert_ne by done. by rewrite lookup_delete_ne.
Qed.

(** [unset_ip], then [set_ip]: the backup that was there at first is there
    again with its text, after having been the configuration file in
    between; the configuration file is the one [set_ip] has written, and no
    other file has changed. *)
Lemma unset_ip_then_set_ip (env : Env) (self : NetworkInterface)
    (ipaddr netmask interface_type : pyval) (w w1 w2 : World) :
  unset_ip env self w = (Return tt, w1) ->
  set_ip env self ipaddr netmask interface_type w1 = (Return tt, w2) ->
  exists conf saved,
    config_path (distro_name env) (name self) = Some conf
    /\ files w !! backup_of conf = Some saved
    /\ files w1 !! conf = Some saved
    /\ files w1 !! backup_of conf = None
    /\ files w2 !! backup_of conf = Some saved
    /\ is_Some (files w2 !! conf)
    /\ (forall p, p <> conf -> p <> backup_of conf ->
                  files w2 !! p = files w !! p).
Proof.
  intros Hunset Hset.
  apply unset_ip_returns in Hunset as (conf & saved & Hconf & Hbak & Hw1).
  apply set_ip_returns in Hset as (conf' & text & written & Hconf' & Hw & Hw2).
  rewrite Hconf in Hconf'. injection Hconf' as <-.
  pose proof (backup_of_ne conf) as Hne.
  assert (files w1 !! conf = Some saved) as Hconf1.
  { rewrite Hw1. by rewrite lookup_insert_eq. }
  rewrite Hconf1 in Hw. injection Hw as <-.
  exists conf, saved. repeat split; try done.
  - rewrite Hw1. rewrite lookup_insert_ne by done. by rewrite lookup_delete_eq.
  - rewrite Hw2. rewrite lookup_insert_ne by done. by rewrite lookup_insert_eq.
  - rewrite Hw2. rewrite lookup_insert_eq. eauto.
  - intros p Hp Hpb. rewrite Hw2, Hw1.
    rewrite !lookup_insert_ne by done. rewrite lookup_delete_ne by done.
    rewrite lookup_insert_ne by done. by rewrite lookup_delete_ne.
Qed.

Example set_ip_rhel_file :
  files (snd (set_ip demo_env eth0 (PStr "192.168.0.1") (PStr "255.255.255.0")
                (PStr "IPV4") demo_world))
    !! "/etc/sysconfig/network-scripts/ifcfg-eth0"
  = Some ("TYPE=Ethernet " +:+ nl +:+ "BOOTPROTO=none " +:+ nl +:+
          "NAME=eth0 " +:+ nl +:+ "DEVICE=eth0 " +:+ nl +:+
          "ONBOOT=yes " +:+ nl +:+ "IPADDR=192.168.0.1 " +:+ nl +:+
          "NETMASK=255.255.255.0 " +:+ nl +:+ "IPV6INIT=yes " +:+ nl +:+
          "IPV6_AUTOCONF=yes " +:+ nl +:+ "IPV6_DEFROUTE=yes").
Proof. vm_compute. reflexivity. Qed.

(** ** configure_network.py: [unset_ip] on a family that is not supported *)

Lemma config_path_unsupported (distro ifname : string) :
  distro <> "rhel" -> distro <> "SuSE" -> config_path distro ifname = None.
Proof.
  intros Hrhel Hsuse. unfold config_path.
  destruct (String.eqb_spec distro "rhel"); [done|].
  by destruct (String.eqb_spec distro "SuSE").
Qed.

(** C8, as amended: on a family that is neither rhel nor SuSE, [unset_ip]
    runs [ifdown] first; when that exits with status zero the unassigned
    [conf_file] then raises the unbound-variable error, not [NWException],
    and no file has been moved. *)
Theorem unset_ip_unsupported_distro (env : Env) (self : NetworkInterface)
    (w : World) (out : string) :
  distro_name env <> "rhel" ->
  distro_name env <> "SuSE" ->
  run_cmd env w ("ifdown " +:+ name self) true = Exited 0 out ->
  unset_ip_unbound env self w.
Proof.
  intros Hrhel Hsuse Hrun. unfold unset_ip_unbound.
  rewrite unset_ip_steps, config_path_unsupported by done.
  unfold bind, bring_down, try_except, bind.
  rewrite (process_system_exited _ _ _ _ _ _ _ Hrun). cbn.
  eexists. repeat split.
Qed.

(** When [ifdown] fails, it is the error of [bring_down] that leaves
    [unset_ip], on any family. *)
Lemma unset_ip_ifdown_fails (env : Env) (self : NetworkInterface) (w : World)
    (status : Z) (out : string) :
  status <> 0%Z ->
  run_cmd env w ("ifdown " +:+ name self) true = Exited status out ->
  unset_ip env self w
  = (Raise (NWException
              ("ifdown fails: " +:+
               ("Command '" +:+ ("ifdown " +:+ name self) +:+ "' failed"))),
     log_event (Ran ("ifdown " +:+ name self) true) w).
Proof.
  intros Hstatus Hrun. rewrite unset_ip_steps.
  unfold bind, bring_down, try_except, bind.
  rewrite (process_system_exited _ _ _ _ _ _ _ Hrun).
  apply Z.eqb_neq in Hstatus. rewrite Hstatus. reflexivity.
Qed.

Lemma unset_ip_unsupported_distro_witness :
  unset_ip_unbound debian_env eth0 demo_world.
Proof.
  apply (unset_ip_unsupported_distro debian_env eth0 demo_world "").
  - vm_compute. discriminate.
  - vm_compute. discriminate.
  - reflexivity.
Defined.

(** The family is not supported and [ifdown] fails: the error is the
    [NWException] of [bring_down]. *)
Lemma unset_ip_unsupported_ifdown_fails :
  distro_name ubuntu_env <> "rhel"
  /\ distro_name ubuntu_env <> "SuSE"
  /\ (exists msg,
        fst (unset_ip ubuntu_env eth0 demo_world) = Raise (NWException msg))
  /\ ~ unset_ip_unbound ubuntu_env eth0 demo_world.
Proof.
  pose proof (unset_ip_ifdown_fails ubuntu_env eth0 demo_world 1 ""
                ltac:(done) eq_refl) as Heq.
  split; [|split; [|split]].
  - vm_compute. discriminate.
  - vm_compute. discriminate.
  - eexists. by rewrite Heq.
  - intros (w' & Hraise & _). rewrite Heq in Hraise. discriminate Hraise.
Qed.

(** * Further properties *)

(** ** disk.py: [get_disks] *)

Lemma rmapM_names (env : Env) (disks : list json) (names : list string) :
  Forall2 named disks names ->
  rmapM (fun disk =>
           (name <-? json_getitem disk "name" ;
            Return ("/dev/" +:+ json_str env name))%result) disks
  = Return (map (fun n => "/dev/" +:+ n) names).
Proof.
  induction 1 as [|disk n disks names Hn _ IH]; [reflexivity|].
  cbn [rmapM map]. unfold named in Hn. rewrite Hn. cbn [rbind json_str].
  by rewrite IH.
Qed.

Lemma get_disks_of_json (env : Env) (w : World) (text : string) (j : json)
    (disks : list json) (names : list string) :
  run_cmd env w "lsblk --json" false = Exited 0 text ->
  json_loads env text = Return j ->
  json_getitem j "blockdevices" = Return (JArr disks) ->
  Forall2 named disks names ->
  get_disks env w
  = (Return (map (fun n => "/dev/" +:+ n) names),
     log_event (Ran "lsblk --json" false) w).
Proof.
  intros Hrun Hjson Hdevs Hnames. unfold get_disks, bind, lift.
  rewrite (process_run_exited _ _ _ _ _ _ _ Hrun). cbn.
  rewrite Hjson, Hdevs. cbn [rbind json_iter].
  by rewrite (rmapM_names env disks names Hnames).
Qed.

(** X1: when [lsblk --json] succeeds and its output decodes to an object
    whose [blockdevices] is a list of entries with text names, [get_disks]
    gives the path [/dev/<name>] of every entry, in the order of the list,
    and has run nothing but [lsblk]. *)
Theorem get_disks_paths (env : Env) (w : World) (text : string) (j : json)
    (disks : list json) (names : list string) :
  run_cmd env w "lsblk --json" false = Exited 0 text ->
  json_loads env text = Return j ->
  json_getitem j "blockdevices" = Return (JArr disks) ->
  Forall2 named disks names ->
  get_disks env w
  = (Return (map (fun n => "/dev/" +:+ n) names),
     log_event (Ran "lsblk --json" false) w).
Proof. apply get_disks_of_json. Qed.

Lemma get_disks_paths_witness :
  get_disks demo_env demo_world
  = (Return (map (fun n => "/dev/" +:+ n) ["sda"]),
     log_event (Ran "lsblk --json" false) demo_world).
Proof.
  apply (get_disks_paths demo_env demo_world lsblk_text
           (JObj [("blockdevices", JArr [JObj [("name", JStr "sda")]])])
           [JObj [("name", JStr "sda")]] ["sda"]).
  - reflexivity.
  - reflexivity.
  - reflexivity.
  - repeat constructor.
Defined.

(** X2: a device that [lsblk] lists at the top level is refused: with the
    names as in X1, [get_partition_info] on [/dev/<name>] raises
    [DiskUtilsError], and fdisk is not run. *)
Theorem get_partition_info_refuses_disk (env : Env) (w : World)
    (text : string) (j : json) (disks : list json) (names : list string)
    (n : string) :
  run_cmd env w "lsblk --json" false = Exited 0 text ->
  json_loads env text = Return j ->
  json_getitem j "blockdevices" = Return (JArr disks) ->
  Forall2 named disks names ->
  n ∈ names ->
  get_partition_info env ("/dev/" +:+ n) w
  = (Raise (DiskUtilsError "provided disk partition not disk"),
     log_event (Ran "lsblk --json" false) w).
Proof.
  intros Hrun Hjson Hdevs Hnames Hn.
  apply (get_partition_info_whole_disk env _ w _
           (map (fun n => "/dev/" +:+ n) names)).
  - by apply (get_disks_of_json env w text j disks names).
  - apply list_elem_of_fmap. by exists n.
Qed.

Lemma get_partition_info_refuses_disk_witness :
  get_partition_info demo_env ("/dev/" +:+ "sda") demo_world
  = (Raise (DiskUtilsError "provided disk partition not disk"),
     log_event (Ran "lsblk --json" false) demo_world).
Proof.
  apply (get_partition_info_refuses_disk demo_env demo_world lsblk_text
           (JObj [("blockdevices", JArr [JObj [("name", JStr "sda")]])])
           [JObj [("name", JStr "sda")]] ["sda"] "sda").
  - reflexivity.
  - reflexivity.
  - reflexivity.
  - repeat constructor.
  - repeat constructor.
Defined.

(** ** disk.py: a line that is too short *)

Lemma partition_record_short (value : list string) :
  length value < 8 -> partition_record value = Raise IndexError.
Proof.
  intros Hlen. unfold partition_record.
  do 8 (destruct value as [|? value]; [reflexivity|]).
  cbn [length] in Hlen. lia.
Qed.

Lemma boot_column_length (fields : list string) :
  length fields <= length (boot_column fields).
Proof.
  destruct fields as [|f0 [|f1 fs]]; cbn [boot_column]; try lia.
  destruct (String.eqb f1 "*"); cbn [length]; lia.
Qed.

Lemma partition_of_line_short (line : string) :
  length (boot_column (re_split_ws line)) < 8 ->
  partition_of_line [] line = Raise IndexError.
Proof.
  intros Hlen. unfold partition_of_line.
  destruct (decide (2 <= length (re_split_ws line))) as [Htwo|Hone].
  - rewrite insert_boot_fields by done. cbn [rbind].
    unfold merge_type. rewrite bool_decide_false by lia. cbn [rbind].
    by apply partition_record_short.
  - unfold insert_boot.
    destruct (re_split_ws line) as [|f0 [|f1 fs]]; [reflexivity|reflexivity|].
    cbn [length] in Hone. lia.
Qed.

(** X3: when the first line that starts with the device has, with the Boot
    column made explicit, fewer than the eight fields of the record,
    [get_partition_info] raises [IndexError]; lines after it are not looked
    at. *)
Theorem get_partition_info_short_row (env : Env) (device : string)
    (w w1 : World) (disks before after : list string) (line : string) :
  get_disks env w = (Return disks, w1) ->
  device ∉ disks ->
  popen_lines env w1 (fdisk_command (rstrip is_digit device))
  = before ++ line :: after ->
  Forall (fun l => startswith l device = false) before ->
  startswith line device = true ->
  length (boot_column (re_split_ws line)) < 8 ->
  fst (get_partition_info env device w) = Raise IndexError.
Proof.
  intros Hdisks Hnot Hlines Hbefore Hline Hshort.
  rewrite (get_partition_info_scan env device w w1 disks Hdisks Hnot).
  cbn [fst]. rewrite Hlines, scan_fdisk_lines_skip by assumption.
  cbn [scan_fdisk_lines]. rewrite Hline. cbn [negb].
  by rewrite partition_of_line_short.
Qed.

Lemma get_partition_info_short_row_witness :
  fst (get_partition_info odd_env "/dev/sdb1" demo_world) = Raise IndexError.
Proof.
  apply (get_partition_info_short_row odd_env "/dev/sdb1" demo_world
           (log_event (Ran "lsblk --json" false) demo_world) ["/dev/sda"]
           [] ["/dev/sdb1  *  2048  2099199  2097152  1G 83 Linux" +:+ nl]
           ("/dev/sdb1 2048 4095" +:+ nl)).
  - reflexivity.
  - vm_compute. intros H. inversion H as [|? ? ? H']; subst; inversion H'.
  - reflexivity.
  - constructor.
  - reflexivity.
  - vm_compute. lia.
Defined.

(** ** disk.py: [get_filesystem_type] *)

Lemma open_readlines_text (path text : string) (w : World) :
  files w !! path = Some text ->
  open_readlines path w = (Return (readlines text), w).
Proof. intros H. unfold open_readlines. by rewrite H. Qed.

Lemma scan_mounts_skip (mount_point : string) (before rest : list string) :
  Forall (fun l => mounts_elsewhere mount_point l = true) before ->
  scan_mounts mount_point (before ++ rest) = scan_mounts mount_point rest.
Proof.
  induction 1 as [|l before Hl _ IH]; [reflexivity|].
  cbn [app scan_mounts]. unfold mounts_elsewhere in Hl.
  destruct (py_split l) as [|a [|b [|c [|d [|e [|f [|g ?]]]]]]];
    try discriminate Hl.
  apply negb_true_iff in Hl. by rewrite Hl.
Qed.

Lemma get_filesystem_type_scan (mount_point text : string) (w : World) :
  files w !! "/proc/mounts" = Some text ->
  get_filesystem_type mount_point w
  = (scan_mounts mount_point (readlines text), w).
Proof.
  intros H. unfold get_filesystem_type, bind, lift.
  by rewrite (open_readlines_text _ _ _ H).
Qed.

(** X4: [get_filesystem_type] gives the third field of the first line of
    [/proc/mounts] whose second field is the mount point, when the lines
    before it have six fields each; lines after it do not count, even if
    they name the mount point again. *)
Theorem get_filesystem_type_first_match (mount_point text : string)
    (w : World) (before after : list string) (line : string)
    (fs_spec fs_vfstype fs_mntops fs_freq fs_passno : string) :
  files w !! "/proc/mounts" = Some text ->
  readlines text = before ++ line :: after ->
  Forall (fun l => mounts_elsewhere mount_point l = true) before ->
  py_split line
  = [fs_spec; mount_point; fs_vfstype; fs_mntops; fs_freq; fs_passno] ->
  get_filesystem_type mount_point w = (Return (Some fs_vfstype), w).
Proof.
  intros Hfile Hlines Hbefore Hline.
  rewrite (get_filesystem_type_scan _ _ _ Hfile), Hlines.
  rewrite scan_mounts_skip by done.
  cbn [scan_mounts]. rewrite Hline. by rewrite String.eqb_refl.
Qed.

Lemma get_filesystem_type_first_match_witness :
  get_filesystem_type "/" proc_world = (Return (Some "ext4"), proc_world).
Proof.
  apply (get_filesystem_type_first_match "/"
           (mount_line_of "sysfs" "/sys" "sysfs" "rw" +:+
            mount_line_of "/dev/sda1" "/" "ext4" "rw,relatime" +:+
            mount_line_of "/dev/sda1" "/" "xfs" "rw")
           proc_world
           [mount_line_of "sysfs" "/sys" "sysfs" "rw"]
           [mount_line_of "/dev/sda1" "/" "xfs" "rw"]
           (mount_line_of "/dev/sda1" "/" "ext4" "rw,relatime")
           "/dev/sda1" "ext4" "rw,relatime" "0" "0").
  - reflexivity.
  - reflexivity.
  - repeat constructor.
  - reflexivity.
Defined.

(** X5: a line that does not split into exactly six fields, an empty line
    for one, stops [get_filesystem_type] with [ValueError] when no line
    before it is for the mount point, whatever the lines after it hold. *)
Theorem get_filesystem_type_malformed_line (mount_point text : string)
    (w : World) (before after : list string) (line : string) :
  files w !! "/proc/mounts" = Some text ->
  readlines text = before ++ line :: after ->
  Forall (fun l => mounts_elsewhere mount_point l = true) before ->
  length (py_split line) <> 6 ->
  get_filesystem_type mount_point w
  = (Raise (OtherException "ValueError" "unpack"), w).
Proof.
  intros Hfile Hlines Hbefore Hline.
  rewrite (get_filesystem_type_scan _ _ _ Hfile), Hlines.
  rewrite scan_mounts_skip by done.
  cbn [scan_mounts].
  destruct (py_split line) as [|a [|b [|c [|d [|e [|f [|g ?]]]]]]];
    try reflexivity.
  by cbn in Hline.
Qed.

Lemma get_filesystem_type_malformed_line_witness :
  get_filesystem_type "/" gap_world
  = (Raise (OtherException "ValueError" "unpack"), gap_world).
Proof.
  apply (get_filesystem_type_malformed_line "/"
           (mount_line_of "sysfs" "/sys" "sysfs" "rw" +:+ nl +:+
            mount_line_of "/dev/sda1" "/" "ext4" "rw,relatime")
           gap_world
           [mount_line_of "sysfs" "/sys" "sysfs" "rw"]
           [mount_line_of "/dev/sda1" "/" "ext4" "rw,relatime"]
           nl).
  - reflexivity.
  - reflexivity.
  - repeat constructor.
  - vm_compute. lia.
Defined.

(** X6: when every line of [/proc/mounts] has six fields and none is for
    the mount point, [get_filesystem_type] gives [None]. *)
Theorem get_filesystem_type_no_match (mount_point text : string) (w : World) :
  files w !! "/proc/mounts" = Some text ->
  Forall (fun l => mounts_elsewhere mount_point l = true) (readlines text) ->
  get_filesystem_type mount_point w = (Return None, w).
Proof.
  intros Hfile Hlines.
  rewrite (get_filesystem_type_scan _ _ _ Hfile).
  rewrite <- (app_nil_r (readlines text)).
  by rewrite scan_mounts_skip.
Qed.

Lemma get_filesystem_type_no_match_witness :
  get_filesystem_type "/home" proc_world = (Return None, proc_world).
Proof.
  apply (get_filesystem_type_no_match "/home"
           (mount_line_of "sysfs" "/sys" "sysfs" "rw" +:+
            mount_line_of "/dev/sda1" "/" "ext4" "rw,relatime" +:+
            mount_line_of "/dev/sda1" "/" "xfs" "rw")
           proc_world).
  - reflexivity.
  - vm_compute. repeat constructor.
Defined.

(** ** disk.py: [get_available_filesystems] *)

Lemma sub_nodev_from_no_space (skip : nat) (line : string) :
  no_space (sub_nodev_from skip line) = true.
Proof.
  revert skip. induction line as [|c r IH]; intros skip; [reflexivity|].
  cbn [sub_nodev_from]. destruct skip as [|skip]; [|apply IH].
  destruct (String.prefix "nodev" (String c r)); [apply IH|].
  destruct (is_space c) eqn:Hc; [apply IH|].
  cbn [no_space]. by rewrite Hc, IH.
Qed.

Lemma foldl_filesystems (lines : list string) (acc : gset string) :
  foldl (fun filesystems proc_fs_line =>
           filesystems ∪ {[ sub_nodev proc_fs_line ]}) acc lines
  = acc ∪ list_to_set (map sub_nodev lines).
Proof.
  revert acc. induction lines as [|l lines IH]; intros acc; cbn.
  - by rewrite (right_id_L ∅ (∪)).
  - rewrite IH. by rewrite (assoc_L (∪)).
Qed.

Lemma get_available_filesystems_lines (text : string) (w : World) :
  files w !! "/proc/filesystems" = Some text ->
  get_available_filesystems w
  = (Return (list_to_set (map sub_nodev (readlines text))), w).
Proof.
  intros H. unfold get_available_filesystems, bind, ret.
  rewrite (open_readlines_text _ _ _ H), foldl_filesystems.
  by rewrite (left_id_L ∅ (∪)).
Qed.

(** X7: no name that [get_available_filesystems] gives has white space in
    it. *)
Theorem get_available_filesystems_no_space (w w' : World)
    (filesystems : gset string) (x : string) :
  get_available_filesystems w = (Return filesystems, w') ->
  x ∈ filesystems ->
  no_space x = true.
Proof.
  unfold get_available_filesystems, bind, ret, open_readlines.
  destruct (files w !! "/proc/filesystems") as [text|]; [|intros [=]].
  intros [= <- _]. rewrite foldl_filesystems.
  rewrite elem_of_union, elem_of_list_to_set, list_elem_of_fmap.
  intros [Hx | (l & -> & _)]; [by apply elem_of_empty in Hx|].
  apply sub_nodev_from_no_space.
Qed.

Lemma get_available_filesystems_no_space_witness :
  no_space "ext4" = true.
Proof.
  apply (get_available_filesystems_no_space proc_world proc_world
           {[ "sysfs"; "ext4" ]} "ext4").
  - vm_compute. reflexivity.
  - set_solver.
Defined.

(** A prefix without white space that is not there stays away when a
    newline is put behind the text. *)
Lemma prefix_before_nl (p s rest : string) :
  no_space p = true ->
  String.prefix p s = false ->
  String.prefix p (s +:+ nl +:+ rest) = false.
Proof.
  revert s. induction p as [|x p IH]; intros s Hp Hs.
  - by destruct s.
  - cbn [no_space] in Hp. apply andb_true_iff in Hp as [Hx Hp].
    destruct s as [|y s].
    + change ("" +:+ nl +:+ rest) with (String "010" rest).
      cbn [String.prefix]. destruct (ascii_dec x "010") as [->|]; [|done].
      discriminate Hx.
    + change (String y s +:+ nl +:+ rest) with (String y (s +:+ nl +:+ rest)).
      cbn [String.prefix] in *. destruct (ascii_dec x y); [|done].
      by apply IH.
Qed.

Lemma sub_nodev_plain (name rest : string) :
  plain_name name = true ->
  sub_nodev_from 0 (name +:+ nl +:+ rest) = name +:+ sub_nodev_from 0 rest.
Proof.
  unfold plain_name. intros H. apply andb_true_iff in H as [Hspace Hnodev].
  apply negb_true_iff in Hnodev.
  induction name as [|c name IH].
  - change ("" +:+ nl +:+ rest) with (String "010" rest).
    cbn [sub_nodev_from]. by destruct rest.
  - cbn [no_space] in Hspace. apply andb_true_iff in Hspace as [Hc Hspace].
    cbn [str_contains] in Hnodev.
    apply orb_false_iff in Hnodev as [Hhere Hlater].
    apply negb_true_iff in Hc.
    change (String c name +:+ nl +:+ rest)
      with (String c (name +:+ nl +:+ rest)).
    cbn [sub_nodev_from].
    change (String c (name +:+ nl +:+ rest))
      with (String c name +:+ nl +:+ rest).
    rewrite (prefix_before_nl "nodev" (String c name) rest eq_refl Hhere).
    rewrite Hc. rewrite IH by done. reflexivity.
Qed.

Lemma readlines_no_space (name rest : string) :
  no_space name = true ->
  readlines (name +:+ nl +:+ rest) = (name +:+ nl) :: readlines rest.
Proof.
  induction name as [|c name IH]; intros Hspace; [reflexivity|].
  cbn [no_space] in Hspace. apply andb_true_iff in Hspace as [Hc Hspace].
  change (String c name +:+ nl +:+ rest)
    with (String c (name +:+ nl +:+ rest)).
  cbn [readlines]. rewrite IH by done.
  destruct (Ascii.eqb_spec c "010") as [->|]; [discriminate Hc|].
  reflexivity.
Qed.

Lemma readlines_prepend (c : ascii) (s line : string) (lines : list string) :
  Ascii.eqb c "010" = false ->
  readlines s = line :: lines ->
  readlines (String c s) = String c line :: lines.
Proof. intros Hc Hs. cbn [readlines]. by rewrite Hc, Hs. Qed.

Lemma readlines_proc_fs_text (entries : list (bool * string)) :
  Forall (fun entry => plain_name (snd entry) = true) entries ->
  readlines (proc_fs_text entries) = map proc_fs_line entries.
Proof.
  induction 1 as [|[mark name] entries Hname _ IH]; [reflexivity|].
  cbn [proc_fs_text map]. unfold proc_fs_line. cbn [fst snd].
  unfold plain_name in Hname. apply andb_true_iff in Hname as [Hspace _].
  pose proof (readlines_no_space name (proc_fs_text entries) Hspace) as Hline.
  rewrite IH in Hline.
  destruct mark.
  - change (("nodev" +:+ String "009" (name +:+ nl)) +:+ proc_fs_text entries)
      with ("nodev" +:+ String "009" ((name +:+ nl) +:+ proc_fs_text entries)).
    rewrite <- string_app_assoc.
    do 6 (apply readlines_prepend; [reflexivity|]). exact Hline.
  - change (("" +:+ String "009" (name +:+ nl)) +:+ proc_fs_text entries)
      with (String "009" ((name +:+ nl) +:+ proc_fs_text entries)).
    rewrite <- string_app_assoc.
    apply readlines_prepend; [reflexivity|]. exact Hline.
Qed.

Lemma sub_nodev_proc_fs_line (mark : bool) (name : string) :
  plain_name name = true ->
  sub_nodev (proc_fs_line (mark, name)) = name.
Proof.
  intros Hname. unfold sub_nodev, proc_fs_line. cbn [fst snd].
  pose proof (sub_nodev_plain name "" Hname) as Hsub.
  change (sub_nodev_from 0 "") with "" in Hsub.
  assert (name +:+ "" = name) as Hnil.
  { clear. induction name as [|c name IH]; [reflexivity|].
    change (String c (name +:+ "") = String c name). by rewrite IH. }
  assert (nl +:+ "" = nl) as Hnl by reflexivity.
  rewrite Hnil, Hnl in Hsub.
  destruct mark.
  - change (sub_nodev_from 0 ("nodev" +:+ String "009" (name +:+ nl)))
      with (sub_nodev_from 0 (name +:+ nl)). exact Hsub.
  - change (sub_nodev_from 0 ("" +:+ String "009" (name +:+ nl)))
      with (sub_nodev_from 0 (name +:+ nl)). exact Hsub.
Qed.

Lemma sub_nodev_proc_fs_lines (entries : list (bool * string)) :
  Forall (fun entry => plain_name (snd entry) = true) entries ->
  map sub_nodev (map proc_fs_line entries) = map snd entries.
Proof.
  induction 1 as [|[mark name] entries Hname _ IH]; [reflexivity|].
  cbn [map snd]. rewrite IH. by rewrite sub_nodev_proc_fs_line.
Qed.

(** X8: on a [/proc/filesystems] whose lines are the [nodev] mark or
    nothing, a tab and a name, the names having no white space and no
    [nodev] in them, [get_available_filesystems] gives exactly the names,
    each once. *)
Theorem get_available_filesystems_names (entries : list (bool * string))
    (w : World) :
  files w !! "/proc/filesystems" = Some (proc_fs_text entries) ->
  Forall (fun entry => plain_name (snd entry) = true) entries ->
  get_available_filesystems w
  = (Return (list_to_set (map snd entries)), w).
Proof.
  intros Hfile Hnames.
  rewrite (get_available_filesystems_lines _ _ Hfile).
  rewrite readlines_proc_fs_text by done.
  by rewrite sub_nodev_proc_fs_lines.
Qed.

Lemma get_available_filesystems_names_witness :
  get_available_filesystems proc_world
  = (Return (list_to_set
               (map snd [(true, "sysfs"); (false, "ext4"); (true, "sysfs")])),
     proc_world).
Proof.
  apply (get_available_filesystems_names
           [(true, "sysfs"); (false, "ext4"); (true, "sysfs")] proc_world).
  - reflexivity.
  - repeat constructor.
Defined.

(** ** configure_network.py: [set_ip] and [unset_ip], step by step *)

Lemma _move_config_file_present (self : NetworkInterface)
    (src dest text : string) (w : World) :
  files w !! src = Some text ->
  _move_config_file self src dest w
  = (Return tt,
     {| files := <[dest := text]> (delete src (files w));
        history := history w |}).
Proof.
  intros Hsrc. unfold _move_config_file, bind, os_path_exists, shutil_move.
  rewrite bool_decide_true by (rewrite Hsrc; eauto). by rewrite Hsrc.
Qed.

Lemma _move_config_file_absent (self : NetworkInterface) (src dest : string)
    (w : World) :
  files w !! src = None ->
  _move_config_file self src dest w
  = (Raise (NWException (name self +:+ " interface not available")), w).
Proof.
  intros Hsrc. unfold _move_config_file, bind, os_path_exists.
  rewrite bool_decide_false; [reflexivity|].
  rewrite Hsrc. by intros [? ?].
Qed.

Lemma bring_up_exited (env : Env) (self : NetworkInterface) (w : World)
    (status : Z) (out : string) :
  run_cmd env w ("ifup " +:+ name self) true = Exited status out ->
  bring_up env self w
  = (if (status =? 0)%Z then Return true
     else Raise (NWException
                   ("ifup fails: " +:+
                    ("Command '" +:+ ("ifup " +:+ name self) +:+ "' failed"))),
     log_event (Ran ("ifup " +:+ name self) true) w).
Proof.
  intros Hrun. unfold bring_up, try_except, bind.
  rewrite (process_system_exited _ _ _ _ _ _ _ Hrun).
  by destruct (status =? 0)%Z.
Qed.

Lemma bring_down_exited (env : Env) (self : NetworkInterface) (w : World)
    (status : Z) (out : string) :
  run_cmd env w ("ifdown " +:+ name self) true = Exited status out ->
  bring_down env self w
  = (if (status =? 0)%Z then Return true
     else Raise (NWException
                   ("ifdown fails: " +:+
                    ("Command '" +:+ ("ifdown " +:+ name self) +:+ "' failed"))),
     log_event (Ran ("ifdown " +:+ name self) true) w).
Proof.
  intros Hrun. unfold bring_down, try_except, bind.
  rewrite (process_system_exited _ _ _ _ _ _ _ Hrun).
  by destruct (status =? 0)%Z.
Qed.

(** [set_ip] as the steps it takes once the family is known. *)
Lemma set_ip_steps (env : Env) (self : NetworkInterface)
    (ipaddr netmask interface_type : pyval) (w : World) :
  set_ip env self ipaddr netmask interface_type w
  = match config_path (distro_name env) (name self) with
    | Some conf =>
        (_move_config_file self conf (backup_of conf) ;;;
         write_file conf
           (set_ip_text (distro_name env) self ipaddr netmask interface_type) ;;;
         bring_up env self ;;;
         ret tt) w
    | None =>
        (Raise (NWException "Distro not supported by API , could not set ip"),
         w)
    end.
Proof.
  unfold set_ip, config_path, set_ip_text, distro_detect_name, ret, bind,
    backup_of.
  destruct (String.eqb (distro_name env) "rhel").
  - by destruct (_move_config_file self _ _ w) as [[[]|e] w0].
  - destruct (String.eqb (distro_name env) "SuSE"); [|reflexivity].
    by destruct (_move_config_file self _ _ w) as [[[]|e] w0].
Qed.

(** X9: on a family that is not supported [set_ip] raises [NWException]
    at once: no file is moved or written and no command is run. *)
Theorem set_ip_unsupported_distro (env : Env) (self : NetworkInterface)
    (ipaddr netmask interface_type : pyval) (w : World) :
  distro_name env <> "rhel" ->
  distro_name env <> "SuSE" ->
  set_ip env self ipaddr netmask interface_type w
  = (Raise (NWException "Distro not supported by API , could not set ip"), w).
Proof.
  intros Hrhel Hsuse.
  by rewrite set_ip_steps, config_path_unsupported.
Qed.

Lemma set_ip_unsupported_distro_witness :
  set_ip debian_env eth0 (PStr "192.168.0.1") (PStr "255.255.255.0") PNone
    demo_world
  = (Raise (NWException "Distro not supported by API , could not set ip"),
     demo_world).
Proof.
  apply (set_ip_unsupported_distro debian_env eth0).
  - vm_compute. discriminate.
  - vm_compute. discriminate.
Defined.

Lemma set_ip_absent (env : Env) (self : NetworkInterface)
    (ipaddr netmask interface_type : pyval) (w : World) (conf : string) :
  config_path (distro_name env) (name self) = Some conf ->
  files w !! conf = None ->
  set_ip env self ipaddr netmask interface_type w
  = (Raise (NWException (name self +:+ " interface not available")), w).
Proof.
  intros Hconf Hfile. rewrite set_ip_steps, Hconf. unfold bind.
  by rewrite (_move_config_file_absent self conf _ w Hfile).
Qed.

(** X10: on a supported family, when the interface has no configuration
    file [set_ip] raises [NWException] and leaves everything as it was:
    nothing is written, and the interface is not brought up. *)
Theorem set_ip_without_config_file (env : Env) (self : NetworkInterface)
    (ipaddr netmask interface_type : pyval) (w : World) (conf : string) :
  config_path (distro_name env) (name self) = Some conf ->
  files w !! conf = None ->
  set_ip env self ipaddr netmask interface_type w
  = (Raise (NWException (name self +:+ " interface not available")), w).
Proof.
  apply set_ip_absent.
Qed.

Lemma set_ip_without_config_file_witness :
  set_ip demo_env eth0 (PStr "192.168.0.1") (PStr "255.255.255.0") PNone
    backup_world
  = (Raise (NWException (name eth0 +:+ " interface not available")),
     backup_world).
Proof.
  apply (set_ip_without_config_file demo_env eth0 _ _ _ backup_world
           "/etc/sysconfig/network-scripts/ifcfg-eth0").
  - reflexivity.
  - reflexivity.
Defined.

Lemma set_ip_moves_and_writes (env : Env) (self : NetworkInterface)
    (ipaddr netmask interface_type : pyval) (w : World) (conf old : string) :
  config_path (distro_name env) (name self) = Some conf ->
  files w !! conf = Some old ->
  set_ip env self ipaddr netmask interface_type w
  = (bring_up env self ;;; ret tt)
      {| files :=
           set_ip_files conf old
             (set_ip_text (distro_name env) self ipaddr netmask interface_type)
             (files w);
         history := history w |}.
Proof.
  intros Hconf Hfile. rewrite set_ip_steps, Hconf. unfold bind at 1.
  rewrite (_move_config_file_present self conf _ old w Hfile).
  reflexivity.
Qed.

(** X11: on a supported family, when the configuration file is there and
    [ifup] exits with status zero, [set_ip] returns; the text that was in
    the file is then in the [.backup] file, and the file holds the lines of
    the family, [TYPE] being [Ethernet] for any true [interface_type] and
    the text of [interface_type] itself otherwise. *)
Theorem set_ip_writes_config (env : Env) (self : NetworkInterface)
    (ipaddr netmask interface_type : pyval) (w : World) (conf old out : string) :
  config_path (distro_name env) (name self) = Some conf ->
  files w !! conf = Some old ->
  run_cmd env
    {| files :=
         set_ip_files conf old
           (set_ip_text (distro_name env) self ipaddr netmask interface_type)
           (files w);
       history := history w |}
    ("ifup " +:+ name self) true = Exited 0 out ->
  exists w',
    set_ip env self ipaddr netmask interface_type w = (Return tt, w')
    /\ files w' !! conf
       = Some (set_ip_text (distro_name env) self ipaddr netmask interface_type)
    /\ files w' !! backup_of conf = Some old
    /\ history w' = history w ++ [Ran ("ifup " +:+ name self) true].
Proof.
  intros Hconf Hfile Hrun.
  rewrite (set_ip_moves_and_writes env self _ _ _ w conf old Hconf Hfile).
  unfold bind. rewrite (bring_up_exited _ _ _ _ _ Hrun). cbn.
  eexists. split; [reflexivity|]. cbn. unfold set_ip_files.
  pose proof (backup_of_ne conf).
  rewrite lookup_insert_eq, lookup_insert_ne by done.
  by rewrite lookup_insert_eq.
Qed.

Lemma set_ip_writes_config_witness :
  exists w',
    set_ip demo_env eth0 (PStr "192.168.0.1") (PStr "255.255.255.0") PNone
      demo_world = (Return tt, w')
    /\ files w' !! "/etc/sysconfig/network-scripts/ifcfg-eth0"
       = Some (set_ip_text "rhel" eth0 (PStr "192.168.0.1")
                 (PStr "255.255.255.0") PNone)
    /\ files w' !! backup_of "/etc/sysconfig/network-scripts/ifcfg-eth0"
       = Some "BOOTPROTO=dhcp"
    /\ history w' = history demo_world ++ [Ran ("ifup " +:+ name eth0) true].
Proof.
  apply (set_ip_writes_config demo_env eth0 (PStr "192.168.0.1")
           (PStr "255.255.255.0") PNone demo_world
           "/etc/sysconfig/network-scripts/ifcfg-eth0" "BOOTPROTO=dhcp" "").
  - reflexivity.
  - reflexivity.
  - reflexivity.
Defined.

Example set_ip_text_default_type :
  set_ip_text "rhel" eth0 (PStr "192.168.0.1") (PStr "255.255.255.0") PNone
  = "TYPE=None " +:+ nl +:+ "BOOTPROTO=none " +:+ nl +:+
    "NAME=eth0 " +:+ nl +:+ "DEVICE=eth0 " +:+ nl +:+
    "ONBOOT=yes " +:+ nl +:+ "IPADDR=192.168.0.1 " +:+ nl +:+
    "NETMASK=255.255.255.0 " +:+ nl +:+ "IPV6INIT=yes " +:+ nl +:+
    "IPV6_AUTOCONF=yes " +:+ nl +:+ "IPV6_DEFROUTE=yes".
Proof. reflexivity. Qed.

(** X12: when [ifup] fails, [set_ip] raises [NWException], and the files
    stay as it has changed them: the old text in the [.backup] file, the
    new lines in the configuration file. *)
Theorem set_ip_ifup_fails (env : Env) (self : NetworkInterface)
    (ipaddr netmask interface_type : pyval) (w : World) (conf old out : string)
    (status : Z) :
  config_path (distro_name env) (name self) = Some conf ->
  files w !! conf = Some old ->
  run_cmd env
    {| files :=
         set_ip_files conf old
           (set_ip_text (distro_name env) self ipaddr netmask interface_type)
           (files w);
       history := history w |}
    ("ifup " +:+ name self) true = Exited status out ->
  status <> 0%Z ->
  exists msg w',
    set_ip env self ipaddr netmask interface_type w
    = (Raise (NWException msg), w')
    /\ files w' !! conf
       = Some (set_ip_text (distro_name env) self ipaddr netmask interface_type)
    /\ files w' !! backup_of conf = Some old.
Proof.
  intros Hconf Hfile Hrun Hstatus.
  rewrite (set_ip_moves_and_writes env self _ _ _ w conf old Hconf Hfile).
  unfold bind. rewrite (bring_up_exited _ _ _ _ _ Hrun).
  apply Z.eqb_neq in Hstatus. rewrite Hstatus.
  eexists _, _. split; [reflexivity|]. cbn. unfold set_ip_files.
  pose proof (backup_of_ne conf).
  rewrite lookup_insert_eq, lookup_insert_ne by done.
  by rewrite lookup_insert_eq.
Qed.

Lemma set_ip_ifup_fails_witness :
  exists msg w',
    set_ip deaf_env eth0 (PStr "192.168.0.1") (PStr "255.255.255.0") PNone
      demo_world = (Raise (NWException msg), w')
    /\ files w' !! "/etc/sysconfig/network-scripts/ifcfg-eth0"
       = Some (set_ip_text "rhel" eth0 (PStr "192.168.0.1")
                 (PStr "255.255.255.0") PNone)
    /\ files w' !! backup_of "/etc/sysconfig/network-scripts/ifcfg-eth0"
       = Some "BOOTPROTO=dhcp".
Proof.
  apply (set_ip_ifup_fails deaf_env eth0 (PStr "192.168.0.1")
           (PStr "255.255.255.0") PNone demo_world
           "/etc/sysconfig/network-scripts/ifcfg-eth0" "BOOTPROTO=dhcp" "" 1).
  - reflexivity.
  - reflexivity.
  - reflexivity.
  - lia.
Defined.

Lemma set_ip_returns_text (env : Env) (self : NetworkInterface)
    (ipaddr netmask interface_type : pyval) (w w1 : World) :
  set_ip env self ipaddr netmask interface_type w = (Return tt, w1) ->
  exists conf old,
    config_path (distro_name env) (name self) = Some conf
    /\ files w !! conf = Some old
    /\ files w1
       = set_ip_files conf old
           (set_ip_text (distro_name env) self ipaddr netmask interface_type)
           (files w).
Proof.
  destruct (config_path (distro_name env) (name self)) as [conf|] eqn:Hconf.
  2:{ rewrite set_ip_steps, Hconf. intros [=]. }
  destruct (files w !! conf) as [old|] eqn:Hfile.
  2:{ rewrite (set_ip_absent env self _ _ _ w conf Hconf Hfile).
      intros [=]. }
  rewrite (set_ip_moves_and_writes env self _ _ _ w conf old Hconf Hfile).
  unfold bind.
  match goal with |- context [bring_up env self ?w0] =>
    destruct (bring_up env self w0) as [[b|e] w2] eqn:Hup end; [|intros [=]].
  intros [= <-]. apply bring_up_returns in Hup. cbn in Hup.
  by exists conf, old.
Qed.

(** X14: on a supported family, when there is no [.backup] file and
    [ifdown] exits with status zero, [unset_ip] raises [NWException] after
    the interface has been brought down; no file is changed. *)
Theorem unset_ip_without_backup (env : Env) (self : NetworkInterface)
    (w : World) (conf out : string) :
  config_path (distro_name env) (name self) = Some conf ->
  files w !! backup_of conf = None ->
  run_cmd env w ("ifdown " +:+ name self) true = Exited 0 out ->
  unset_ip env self w
  = (Raise (NWException (name self +:+ " interface not available")),
     log_event (Ran ("ifdown " +:+ name self) true) w).
Proof.
  intros Hconf Hfile Hrun. rewrite unset_ip_steps, Hconf. unfold bind.
  rewrite (bring_down_exited _ _ _ _ _ Hrun). cbn match.
  by apply _move_config_file_absent.
Qed.

Lemma unset_ip_without_backup_witness :
  unset_ip demo_env eth0 demo_world
  = (Raise (NWException (name eth0 +:+ " interface not available")),
     log_event (Ran ("ifdown " +:+ name eth0) true) demo_world).
Proof.
  apply (unset_ip_without_backup demo_env eth0 demo_world
           "/etc/sysconfig/network-scripts/ifcfg-eth0" "").
  - reflexivity.
  - reflexivity.
  - reflexivity.
Defined.

(** X15: [unset_ip] does not repeat: after a call that returned, the
    [.backup] file is gone, and a second call in which [ifdown] succeeds
    raises [NWException] with the files as the first call left them. *)
Theorem unset_ip_twice (env : Env) (self : NetworkInterface)
    (w w1 : World) (out : string) :
  unset_ip env self w = (Return tt, w1) ->
  run_cmd env w1 ("ifdown " +:+ name self) true = Exited 0 out ->
  unset_ip env self w1
  = (Raise (NWException (name self +:+ " interface not available")),
     log_event (Ran ("ifdown " +:+ name self) true) w1).
Proof.
  intros Hfirst Hrun.
  apply unset_ip_returns in Hfirst as (conf & text & Hconf & _ & Hw1).
  rewrite unset_ip_steps, Hconf. unfold bind.
  rewrite (bring_down_exited _ _ _ _ _ Hrun). cbn match.
  apply _move_config_file_absent. cbn. rewrite Hw1.
  pose proof (backup_of_ne conf).
  rewrite lookup_insert_ne by done. by rewrite lookup_delete_eq.
Qed.

Lemma unset_ip_twice_witness :
  unset_ip demo_env eth0 (snd (unset_ip demo_env eth0 backup_world))
  = (Raise (NWException (name eth0 +:+ " interface not available")),
     log_event (Ran ("ifdown " +:+ name eth0) true)
       (snd (unset_ip demo_env eth0 backup_world))).
Proof.
  apply (unset_ip_twice demo_env eth0 backup_world
           (snd (unset_ip demo_env eth0 backup_world)) "").
  - vm_compute. reflexivity.
  - reflexivity.
Defined.

(** ** configure_network.py: what the wrappers let through *)

(** X16: [bring_down] returns [True] or raises [NWException], nothing
    else, whatever running [ifdown] does. *)
Theorem bring_down_only_NWException (env : Env) (self : NetworkInterface)
    (w : World) :
  exists w',
    bring_down env self w = (Return true, w')
    \/ exists msg, bring_down env self w = (Raise (NWException msg), w').
Proof.
  unfold bring_down, try_except, bind.
  destruct (process_system env ("ifdown " +:+ name self) false true w)
    as [[status|e] w']; exists w'; cbn; eauto.
Qed.

(** X17: [bring_up] wraps only [CmdError]: when running [ifup] raises
    something else, that exception leaves [bring_up] as it is. *)
Theorem bring_up_passes_other_errors (env : Env) (self : NetworkInterface)
    (w : World) (e : exn) :
  run_cmd env w ("ifup " +:+ name self) true = Failed e ->
  (forall msg, e <> CmdError msg) ->
  bring_up env self w
  = (Raise e, log_event (Ran ("ifup " +:+ name self) true) w).
Proof.
  intros Hrun He. unfold bring_up, try_except, bind, process_system, bind,
    process_run.
  rewrite Hrun. destruct e; try reflexivity. by destruct (He msg).
Qed.

Lemma bring_up_passes_other_errors_witness :
  bring_up broken_env eth0 demo_world
  = (Raise (OtherException "FileNotFoundError" "ifup eth0"),
     log_event (Ran ("ifup " +:+ name eth0) true) demo_world).
Proof.
  apply (bring_up_passes_other_errors broken_env eth0 demo_world
           (OtherException "FileNotFoundError" "ifup eth0")).
  - reflexivity.
  - discriminate.
Defined.

Lemma wrapped_system (env : Env) (cmd prefix : string) (A : Type) (a : A)
    (w : World) :
  exists w',
    try_except (process_system env cmd false false ;;; ret a)
      (fun ex => Some (raise (NWException (prefix +:+ exn_str ex)))) w
    = (Return a, w')
    \/ exists detail,
         try_except (process_system env cmd false false ;;; ret a)
           (fun ex => Some (raise (NWException (prefix +:+ exn_str ex)))) w
         = (Raise (NWException (prefix +:+ detail)), w').
Proof.
  unfold try_except, bind.
  destruct (process_system env cmd false false w) as [[status|e] w'];
    exists w'; cbn; eauto.
Qed.

(** X18: [set_hwaddr], [add_hwaddr] and [remove_hwaddr] return, or raise
    [NWException] and nothing else; the message of [remove_hwaddr] starts
    with [ifdown fails], the words of [bring_down]. *)
Theorem hwaddr_only_NWException (env : Env) (self : NetworkInterface)
    (addr : pyval) (w : World) :
  (exists w',
      set_hwaddr env self addr w = (Return tt, w')
      \/ exists detail,
           set_hwaddr env self addr w
           = (Raise (NWException ("Setting Mac address failed: " +:+ detail)),
              w'))
  /\ (exists w',
         add_hwaddr env self addr w = (Return true, w')
         \/ exists detail,
              add_hwaddr env self addr w
              = (Raise (NWException ("Adding hw address fails: " +:+ detail)),
                 w'))
  /\ (exists w',
         remove_hwaddr env self addr w = (Return true, w')
         \/ exists detail,
              remove_hwaddr env self addr w
              = (Raise (NWException ("ifdown fails: " +:+ detail)), w')).
Proof.
  split; [|split]; apply wrapped_system.
Qed.

(** ** configure_network.py: addresses, in general *)

Lemma _get_interfce_details_answer (env : Env) (self : NetworkInterface)
    (version : string) (w w' : World) (details : pyval) :
  _get_interfce_details env self version w = (Return details, w') ->
  details = PBool false \/ details = PNone.
Proof.
  unfold _get_interfce_details, bind, lift.
  match goal with |- context [match ?m w with _ => _ end] =>
    destruct (m w) as [[out|e] w0] end; [|intros [=]].
  destruct (json_loads env out) as [output|e]; [|intros [=]].
  destruct (json_truthy output); cbn; intros [= <- _]; eauto.
Qed.

(** X19: [_get_interfce_details] never gives the decoded output of [ip]:
    when it returns, it returns [False] (the output was empty) or [None]. *)
Theorem _get_interfce_details_no_data (env : Env) (self : NetworkInterface)
    (version : string) (w w' : World) (details : pyval) :
  _get_interfce_details env self version w = (Return details, w') ->
  details = PBool false \/ details = PNone.
Proof. apply _get_interfce_details_answer. Qed.

Lemma _get_interfce_details_no_data_witness :
  PBool false = PBool false \/ PBool false = PNone.
Proof.
  apply (_get_interfce_details_no_data demo_env eth0 "4" demo_world
           (log_event (Ran "ip -4 -j address show eth0" false) demo_world)).
  reflexivity.
Defined.

(** X20: any version that is not equal to 4 by [==], the text ["4"]
    included, is refused by [get_ip_address] and [get_inet_detail] with
    [NWException], before any command is run. *)
Theorem get_ip_address_other_version (env : Env) (self : NetworkInterface)
    (version : pyval) (w : World) :
  py_eq version (PInt 4) = false ->
  get_ip_address env self version w
  = (Raise (NWException "Version not supported"), w)
  /\ get_inet_detail env self version w
     = (Raise (NWException "Version not supported"), w).
Proof.
  intros Hversion. unfold get_ip_address, get_inet_detail, try_except.
  by rewrite Hversion.
Qed.

Lemma get_ip_address_other_version_witness :
  get_ip_address demo_env eth0 (PStr "4") demo_world
  = (Raise (NWException "Version not supported"), demo_world)
  /\ get_inet_detail demo_env eth0 (PStr "4") demo_world
     = (Raise (NWException "Version not supported"), demo_world).
Proof.
  apply (get_ip_address_other_version demo_env eth0 (PStr "4") demo_world).
  reflexivity.
Defined.

(** X21: with version 4, on a local or a remote interface, once the output
    of [ip] has been got and decoded, [TypeError] leaves [get_ip_address]
    and [get_inet_detail]: no address and no [False] is returned. *)
Theorem get_ip_address_type_error (env : Env) (self : NetworkInterface)
    (w w' : World) (details : pyval) :
  _get_interfce_details env self "4" w = (Return details, w') ->
  get_ip_address env self (PInt 4) w = (Raise TypeError, w')
  /\ get_inet_detail env self (PInt 4) w = (Raise TypeError, w').
Proof.
  intros Hdetails.
  pose proof (_get_interfce_details_answer _ _ _ _ _ _ Hdetails) as Hd.
  assert (Hbody : forall field,
    (details <- _get_interfce_details env self "4" ;;
     first_address details field) w = (Raise TypeError, w')).
  { intros field. unfold bind. rewrite Hdetails.
    by apply first_address_of_details. }
  split.
  - change (get_ip_address env self (PInt 4) w)
      with (try_except
              (details <- _get_interfce_details env self "4" ;;
               first_address details "local") missing_address w).
    unfold try_except. by rewrite Hbody.
  - change (get_inet_detail env self (PInt 4) w)
      with (try_except
              (details <- _get_interfce_details env self "4" ;;
               first_address details "family") missing_address w).
    unfold try_except. by rewrite Hbody.
Qed.

Lemma get_ip_address_type_error_witness :
  get_ip_address demo_env eth0 (PInt 4) demo_world
  = (Raise TypeError,
     log_event (Ran "ip -4 -j address show eth0" false) demo_world)
  /\ get_inet_detail demo_env eth0 (PInt 4) demo_world
     = (Raise TypeError,
        log_event (Ran "ip -4 -j address show eth0" false) demo_world).
Proof.
  apply (get_ip_address_type_error demo_env eth0 demo_world
           (log_event (Ran "ip -4 -j address show eth0" false) demo_world)
           (PBool false)).
  reflexivity.
Defined.

(** ** configure_network.py: a remote [Host] *)

Lemma _connect_opens (env : Env) (host port username key password : pyval)
    (w : World) :
  truthy host = true -> truthy port = true -> truthy username = true ->
  _connect env (mkHost host port username key password None []) w
  = match session_open env w host port username key password with
    | None =>
        (Return (mkHost host port username key password
                   (Some (mkSession host port username)) []),
         log_event (Connect host port username key password) w)
    | Some e =>
        (Raise (NWException ("Could not connect to host: " +:+ exn_str e)),
         log_event (Connect host port username key password) w)
    end.
Proof.
  intros Hhost Hport Huser. unfold _connect. simpl.
  rewrite Hhost, Hport, Huser. simpl.
  unfold try_except, bind, Session_new.
  by destruct (session_open env w host port username key password).
Qed.

Lemma _populate_interfaces_remote (env : Env) (self : Host) (s : Session)
    (w : World) :
  session self = Some s ->
  _populate_interfaces env self w
  = (Return (set_interfaces self
               (interfaces self ++
                map (fun n => mkNetworkInterface n (Some s))
                    match session_cmd env w s "ls /sys/class/net" with
                    | Exited _ out => split_char "010" (strip is_space out)
                    | Failed _ => []
                    end)),
     log_event (RanRemote "ls /sys/class/net") w).
Proof.
  intros Hs. unfold _populate_interfaces, is_remote. rewrite Hs.
  unfold try_except, bind, Session_cmd, ret.
  by destruct (session_cmd env w s "ls /sys/class/net").
Qed.

(** X22: with a true host, port and username and a session that opens,
    [Host] lists the interfaces through the session: they are the lines of
    the output of [ls /sys/class/net], white space stripped at both ends,
    each bound to the session; [is_remote()] is [True]. *)
Theorem Host_init_remote (env : Env)
    (host port username key password : pyval) (w : World) (status : Z)
    (out : string) :
  truthy host = true -> truthy port = true -> truthy username = true ->
  session_open env w host port username key password = None ->
  session_cmd env (log_event (Connect host port username key password) w)
    (mkSession host port username) "ls /sys/class/net" = Exited status out ->
  exists self,
    fst (Host_init env host port username key password w) = Return self
    /\ session self = Some (mkSession host port username)
    /\ is_remote self = true
    /\ interfaces self
       = map (fun n => mkNetworkInterface n
                         (Some (mkSession host port username)))
             (split_char "010" (strip is_space out)).
Proof.
  intros Hhost Hport Huser Hopen Hls.
  unfold Host_init, bind. rewrite _connect_opens, Hopen by done.
  rewrite (_populate_interfaces_remote env _ (mkSession host port username))
    by reflexivity.
  rewrite Hls. eexists. split; [reflexivity|]. by repeat split.
Qed.

Lemma Host_init_remote_witness :
  exists self,
    fst (Host_init peer_env (PStr "peer") (PInt 22) (PStr "root") PNone PNone
           demo_world) = Return self
    /\ session self = Some (mkSession (PStr "peer") (PInt 22) (PStr "root"))
    /\ is_remote self = true
    /\ interfaces self
       = map (fun n => mkNetworkInterface n
                         (Some (mkSession (PStr "peer") (PInt 22) (PStr "root"))))
             (split_char "010" (strip is_space ("eth0" +:+ nl +:+ "lo" +:+ nl))).
Proof.
  apply (Host_init_remote peer_env (PStr "peer") (PInt 22) (PStr "root") PNone
           PNone demo_world 0 ("eth0" +:+ nl +:+ "lo" +:+ nl));
    reflexivity.
Defined.

(** X23: when the listing through the session fails, [Host] is built all
    the same, remote and with no interface; the error is dropped. *)
Theorem Host_init_listing_fails (env : Env)
    (host port username key password : pyval) (w : World) (e : exn) :
  truthy host = true -> truthy port = true -> truthy username = true ->
  session_open env w host port username key password = None ->
  session_cmd env (log_event (Connect host port username key password) w)
    (mkSession host port username) "ls /sys/class/net" = Failed e ->
  exists self,
    fst (Host_init env host port username key password w) = Return self
    /\ is_remote self = true
    /\ interfaces self = [].
Proof.
  intros Hhost Hport Huser Hopen Hls.
  unfold Host_init, bind. rewrite _connect_opens, Hopen by done.
  rewrite (_populate_interfaces_remote env _ (mkSession host port username))
    by reflexivity.
  rewrite Hls. eexists. split; [reflexivity|]. by split.
Qed.

Lemma Host_init_listing_fails_witness :
  exists self,
    fst (Host_init broken_env (PStr "peer") (PInt 22) (PStr "root") PNone PNone
           demo_world) = Return self
    /\ is_remote self = true
    /\ interfaces self = [].
Proof.
  apply (Host_init_listing_fails broken_env (PStr "peer") (PInt 22)
           (PStr "root") PNone PNone demo_world
           (OtherException "SSHError" "closed"));
    reflexivity.
Defined.

(** X24: when the session cannot be opened, [Host] raises [NWException],
    whatever the error was, and lists no interface: the connection attempt
    is all that has happened. *)
Theorem Host_init_connect_fails (env : Env)
    (host port username key password : pyval) (w : World) (e : exn) :
  truthy host = true -> truthy port = true -> truthy username = true ->
  session_open env w host port username key password = Some e ->
  Host_init env host port username key password w
  = (Raise (NWException ("Could not connect to host: " +:+ exn_str e)),
     log_event (Connect host port username key password) w).
Proof.
  intros Hhost Hport Huser Hopen.
  unfold Host_init, bind. by rewrite _connect_opens, Hopen.
Qed.

Lemma Host_init_connect_fails_witness :
  Host_init deaf_env (PStr "peer") (PInt 22) (PStr "root") PNone PNone
    demo_world
  = (Raise (NWException
              ("Could not connect to host: " +:+
               exn_str (OtherException "SSHError" "refused"))),
     log_event (Connect (PStr "peer") (PInt 22) (PStr "root") PNone PNone)
       demo_world).
Proof.
  apply (Host_init_connect_fails deaf_env (PStr "peer") (PInt 22)
           (PStr "root") PNone PNone demo_world
           (OtherException "SSHError" "refused"));
    reflexivity.
Defined.

Lemma lstrip_all_space (s : string) :
  all_space s = true -> lstrip is_space s = "".
Proof.
  induction s as [|c s IH]; [reflexivity|].
  cbn [all_space lstrip]. intros H. apply andb_true_iff in H as [-> Hs].
  by apply IH.
Qed.

(** X25: when the listing through the session prints nothing, or white
    space only, [Host] has one interface, and its name is empty. *)
Theorem Host_init_blank_listing (env : Env)
    (host port username key password : pyval) (w : World) (status : Z)
    (out : string) :
  truthy host = true -> truthy port = true -> truthy username = true ->
  session_open env w host port username key password = None ->
  session_cmd env (log_event (Connect host port username key password) w)
    (mkSession host port username) "ls /sys/class/net" = Exited status out ->
  all_space out = true ->
  exists self,
    fst (Host_init env host port username key password w) = Return self
    /\ interfaces self
       = [mkNetworkInterface "" (Some (mkSession host port username))].
Proof.
  intros Hhost Hport Huser Hopen Hls Hblank.
  unfold Host_init, bind. rewrite _connect_opens, Hopen by done.
  rewrite (_populate_interfaces_remote env _ (mkSession host port username))
    by reflexivity.
  rewrite Hls. eexists. split; [reflexivity|].
  cbn [interfaces set_interfaces app]. unfold strip.
  by rewrite lstrip_all_space.
Qed.

Lemma Host_init_blank_listing_witness :
  exists self,
    fst (Host_init demo_env (PStr "peer") (PInt 22) (PStr "root") PNone PNone
           demo_world) = Return self
    /\ interfaces self
       = [mkNetworkInterface ""
            (Some (mkSession (PStr "peer") (PInt 22) (PStr "root")))].
Proof.
  apply (Host_init_blank_listing demo_env (PStr "peer") (PInt 22)
           (PStr "root") PNone PNone demo_world 0 "");
    reflexivity.
Defined.

(** ** configure_network.py: [set_ip] and [unset_ip] one after the other *)

Lemma delete_same_iff (m : gmap string string) (k : string) :
  delete k m = m <-> m !! k = None.
Proof.
  split.
  - intros H. rewrite <- H. apply lookup_delete_eq.
  - apply delete_id.
Qed.

Lemma insert_same_iff (m : gmap string string) (k v : string) :
  <[k := v]> m = m <-> m !! k = Some v.
Proof.
  split.
  - intros H. rewrite <- H. apply lookup_insert_eq.
  - apply insert_id.
Qed.

(** [set_ip], then [unset_ip]: the files are as at first, but for the
    backup, of which none is left. *)
Lemma set_ip_then_unset_ip_files (env : Env) (self : NetworkInterface)
    (ipaddr netmask interface_type : pyval) (w w1 w2 : World) :
  set_ip env self ipaddr netmask interface_type w = (Return tt, w1) ->
  unset_ip env self w1 = (Return tt, w2) ->
  exists conf original,
    config_path (distro_name env) (name self) = Some conf
    /\ files w !! conf = Some original
    /\ files w1 !! backup_of conf = Some original
    /\ files w2 = delete (backup_of conf) (files w).
Proof.
  intros Hset Hunset.
  apply set_ip_returns_text in Hset as (conf & original & Hconf & Hw & Hw1).
  apply unset_ip_returns in Hunset as (conf' & text & Hconf' & Hbak & Hw2).
  rewrite Hconf in Hconf'. injection Hconf' as <-.
  pose proof (backup_of_ne conf) as Hne.
  assert (files w1 !! backup_of conf = Some original) as Hbak1.
  { rewrite Hw1. unfold set_ip_files.
    rewrite lookup_insert_ne by done. by rewrite lookup_insert_eq. }
  rewrite Hbak1 in Hbak. injection Hbak as <-.
  exists conf, original. repeat split; try done.
  rewrite Hw2, Hw1. unfold set_ip_files. apply map_eq. intros p.
  destruct (decide (p = conf)) as [->|Hp].
  { rewrite lookup_insert_eq. by rewrite lookup_delete_ne. }
  rewrite lookup_insert_ne by done.
  destruct (decide (p = backup_of conf)) as [->|Hpb].
  { by rewrite !lookup_delete_eq. }
  rewrite !lookup_delete_ne by done.
  rewrite !lookup_insert_ne by done. by rewrite lookup_delete_ne.
Qed.

(** [unset_ip], then [set_ip]: the files are as at first, but for the
    configuration file, which holds what [set_ip] writes. *)
Lemma unset_ip_then_set_ip_files (env : Env) (self : NetworkInterface)
    (ipaddr netmask interface_type : pyval) (w w1 w2 : World) :
  unset_ip env self w = (Return tt, w1) ->
  set_ip env self ipaddr netmask interface_type w1 = (Return tt, w2) ->
  exists conf saved,
    config_path (distro_name env) (name self) = Some conf
    /\ files w !! backup_of conf = Some saved
    /\ files w1 !! conf = Some saved
    /\ files w2
       = <[conf := set_ip_text (distro_name env) self ipaddr netmask
                     interface_type]> (files w).
Proof.
  intros Hunset Hset.
  apply unset_ip_returns in Hunset as (conf & saved & Hconf & Hbak & Hw1).
  apply set_ip_returns_text in Hset as (conf' & text & Hconf' & Hw & Hw2).
  rewrite Hconf in Hconf'. injection Hconf' as <-.
  pose proof (backup_of_ne conf) as Hne.
  assert (files w1 !! conf = Some saved) as Hconf1.
  { rewrite Hw1. by rewrite lookup_insert_eq. }
  rewrite Hconf1 in Hw. injection Hw as <-.
  exists conf, saved. repeat split; try done.
  rewrite Hw2, Hw1. unfold set_ip_files. apply map_eq. intros p.
  destruct (decide (p = conf)) as [->|Hp].
  { by rewrite !lookup_insert_eq. }
  rewrite !(lookup_insert_ne _ conf p) by done.
  destruct (decide (p = backup_of conf)) as [->|Hpb].
  { by rewrite lookup_insert_eq. }
  rewrite lookup_insert_ne by done. rewrite lookup_delete_ne by done.
  rewrite lookup_insert_ne by done. by rewrite lookup_delete_ne.
Qed.

(** C7, as amended: on a supported family, when [set_ip] and [unset_ip]
    both complete, the file that the first of them moves is at the path of
    its companion in between and back at its own path, with its text, at
    the end.  After [set_ip] then [unset_ip] all files are as at first but
    for the [.backup] file, of which none is left: the files are the same
    exactly when there was no [.backup] file.  After [unset_ip] then
    [set_ip] all files are as at first but for the configuration file,
    which holds the lines that [set_ip] writes: the files are the same
    exactly when it held those lines already. *)
Theorem set_ip_unset_ip_round_trip :
  (forall env self ipaddr netmask interface_type w w1 w2,
      set_ip env self ipaddr netmask interface_type w = (Return tt, w1) ->
      unset_ip env self w1 = (Return tt, w2) ->
      exists conf original,
        config_path (distro_name env) (name self) = Some conf
        /\ files w !! conf = Some original
        /\ files w1 !! backup_of conf = Some original
        /\ files w2 !! conf = Some original
        /\ files w2 = delete (backup_of conf) (files w)
        /\ (files w2 = files w <-> files w !! backup_of conf = None))
  /\ (forall env self ipaddr netmask interface_type w w1 w2,
         unset_ip env self w = (Return tt, w1) ->
         set_ip env self ipaddr netmask interface_type w1 = (Return tt, w2) ->
         exists conf saved,
           config_path (distro_name env) (name self) = Some conf
           /\ files w !! backup_of conf = Some saved
           /\ files w1 !! conf = Some saved
           /\ files w2 !! backup_of conf = Some saved
           /\ files w2
              = <[conf := set_ip_text (distro_name env) self ipaddr netmask
                            interface_type]> (files w)
           /\ (files w2 = files w
               <-> files w !! conf
                   = Some (set_ip_text (distro_name env) self ipaddr netmask
                             interface_type))).
Proof.
  split.
  - intros env self ipaddr netmask interface_type w w1 w2 Hset Hunset.
    destruct (set_ip_then_unset_ip_files env self ipaddr netmask
                interface_type w w1 w2 Hset Hunset)
      as (conf & original & Hconf & Hw & Hw1 & Hw2).
    pose proof (backup_of_ne conf) as Hne.
    exists conf, original. repeat split; try done.
    + rewrite Hw2. by rewrite lookup_delete_ne.
    + rewrite Hw2. apply delete_same_iff.
    + rewrite Hw2. apply delete_same_iff.
  - intros env self ipaddr netmask interface_type w w1 w2 Hunset Hset.
    destruct (unset_ip_then_set_ip_files env self ipaddr netmask
                interface_type w w1 w2 Hunset Hset)
      as (conf & saved & Hconf & Hw & Hw1 & Hw2).
    pose proof (backup_of_ne conf) as Hne.
    exists conf, saved. repeat split; try done.
    + rewrite Hw2. by rewrite lookup_insert_ne.
    + rewrite Hw2. apply insert_same_iff.
    + rewrite Hw2. apply insert_same_iff.
Qed.

Lemma set_ip_unset_ip_round_trip_witness :
  (exists conf original,
      config_path (distro_name demo_env) (name eth0) = Some conf
      /\ files demo_world !! conf = Some original
      /\ files (snd (set_ip demo_env eth0 (PStr "192.168.0.1")
                       (PStr "255.255.255.0") PNone demo_world))
           !! backup_of conf = Some original
      /\ files (snd (unset_ip demo_env eth0
                       (snd (set_ip demo_env eth0 (PStr "192.168.0.1")
                               (PStr "255.255.255.0") PNone demo_world))))
           !! conf = Some original
      /\ files (snd (unset_ip demo_env eth0
                       (snd (set_ip demo_env eth0 (PStr "192.168.0.1")
                               (PStr "255.255.255.0") PNone demo_world))))
         = delete (backup_of conf) (files demo_world)
      /\ (files (snd (unset_ip demo_env eth0
                        (snd (set_ip demo_env eth0 (PStr "192.168.0.1")
                                (PStr "255.255.255.0") PNone demo_world))))
          = files demo_world
          <-> files demo_world !! backup_of conf = None))
  /\ (exists conf saved,
         config_path (distro_name demo_env) (name eth0) = Some conf
         /\ files backup_world !! backup_of conf = Some saved
         /\ files (snd (unset_ip demo_env eth0 backup_world)) !! conf
            = Some saved
         /\ files (snd (set_ip demo_env eth0 (PStr "192.168.0.1")
                          (PStr "255.255.255.0") PNone
                          (snd (unset_ip demo_env eth0 backup_world))))
              !! backup_of conf = Some saved
         /\ files (snd (set_ip demo_env eth0 (PStr "192.168.0.1")
                          (PStr "255.255.255.0") PNone
                          (snd (unset_ip demo_env eth0 backup_world))))
            = <[conf := set_ip_text (distro_name demo_env) eth0
                          (PStr "192.168.0.1") (PStr "255.255.255.0") PNone]>
                (files backup_world)
         /\ (files (snd (set_ip demo_env eth0 (PStr "192.168.0.1")
                           (PStr "255.255.255.0") PNone
                           (snd (unset_ip demo_env eth0 backup_world))))
             = files backup_world
             <-> files backup_world !! conf
                 = Some (set_ip_text (distro_name demo_env) eth0
                           (PStr "192.168.0.1") (PStr "255.255.255.0") PNone))).
Proof.
  split.
  - apply (proj1 set_ip_unset_ip_round_trip demo_env eth0 (PStr "192.168.0.1")
             (PStr "255.255.255.0") PNone demo_world).
    + vm_compute. reflexivity.
    + vm_compute. reflexivity.
  - apply (proj2 set_ip_unset_ip_round_trip demo_env eth0 (PStr "192.168.0.1")
             (PStr "255.255.255.0") PNone backup_world).
    + vm_compute. reflexivity.
    + vm_compute. reflexivity.
Defined.

(** With both files there at first, each order completes and loses one of
    the two texts: [set_ip] then [unset_ip] the text of the backup,
    [unset_ip] then [set_ip] the text of the configuration file. *)
Lemma set_ip_unset_ip_loses_content :
  config_path (distro_name demo_env) (name eth0)
  = Some "/etc/sysconfig/network-scripts/ifcfg-eth0"
  /\ fst (set_ip demo_env eth0 (PStr "192.168.0.1") (PStr "255.255.255.0")
            PNone both_world) = Return tt
  /\ fst (unset_ip demo_env eth0
            (snd (set_ip demo_env eth0 (PStr "192.168.0.1")
                    (PStr "255.255.255.0") PNone both_world))) = Return tt
  /\ ~ keeps_content "/etc/sysconfig/network-scripts/ifcfg-eth0"
         (files both_world)
         (files (snd (unset_ip demo_env eth0
                        (snd (set_ip demo_env eth0 (PStr "192.168.0.1")
                                (PStr "255.255.255.0") PNone both_world)))))
  /\ fst (unset_ip demo_env eth0 both_world) = Return tt
  /\ fst (set_ip demo_env eth0 (PStr "192.168.0.1") (PStr "255.255.255.0")
            PNone (snd (unset_ip demo_env eth0 both_world))) = Return tt
  /\ ~ keeps_content "/etc/sysconfig/network-scripts/ifcfg-eth0"
         (files both_world)
         (files (snd (set_ip demo_env eth0 (PStr "192.168.0.1")
                        (PStr "255.255.255.0") PNone
                        (snd (unset_ip demo_env eth0 both_world))))).
Proof.
  split; [reflexivity|].
  split; [by vm_compute|]. split; [by vm_compute|].
  split.
  { intros Hkeeps.
    destruct (Hkeeps (backup_of "/etc/sysconfig/network-scripts/ifcfg-eth0")
                "B-backup" (or_intror eq_refl) eq_refl) as [H|H];
      vm_compute in H; discriminate H. }
  split; [by vm_compute|]. split; [by vm_compute|].
  intros Hkeeps.
  destruct (Hkeeps "/etc/sysconfig/network-scripts/ifcfg-eth0"
              "A-active" (or_introl eq_refl) eq_refl) as [H|H];
    vm_compute in H; discriminate H.
Qed.

(** X13: [set_ip] twice in a row: all files are as at first, but that the
    [.backup] file holds what the first call wrote and the configuration
    file what the second wrote; the text that was in the configuration file
    before the first call is then in neither of the two, unless it is the
    same as one of the texts written. *)
Theorem set_ip_twice (env : Env) (self : NetworkInterface)
    (ipaddr netmask interface_type ipaddr' netmask' interface_type' : pyval)
    (w w1 w2 : World) :
  set_ip env self ipaddr netmask interface_type w = (Return tt, w1) ->
  set_ip env self ipaddr' netmask' interface_type' w1 = (Return tt, w2) ->
  exists conf old,
    config_path (distro_name env) (name self) = Some conf
    /\ files w !! conf = Some old
    /\ files w2
       = <[conf := set_ip_text (distro_name env) self ipaddr' netmask'
                     interface_type']>
           (<[backup_of conf := set_ip_text (distro_name env) self ipaddr
                                  netmask interface_type]> (files w))
    /\ files w2 !! backup_of conf
       = Some (set_ip_text (distro_name env) self ipaddr netmask interface_type)
    /\ files w2 !! conf
       = Some (set_ip_text (distro_name env) self ipaddr' netmask'
                 interface_type')
    /\ (old <> set_ip_text (distro_name env) self ipaddr netmask interface_type ->
        old <> set_ip_text (distro_name env) self ipaddr' netmask'
                 interface_type' ->
        files w2 !! conf <> Some old
        /\ files w2 !! backup_of conf <> Some old).
Proof.
  intros Hfirst Hsecond.
  apply set_ip_returns_text in Hfirst as (conf & old & Hconf & Hold & Hw1).
  apply set_ip_returns_text in Hsecond as (conf' & old' & Hconf' & Hold' & Hw2).
  rewrite Hconf in Hconf'. injection Hconf' as <-.
  pose proof (backup_of_ne conf) as Hne.
  rewrite Hw1 in Hold'. unfold set_ip_files in Hold'.
  rewrite lookup_insert_eq in Hold'. injection Hold' as <-.
  assert (files w2
          = <[conf := set_ip_text (distro_name env) self ipaddr' netmask'
                        interface_type']>
              (<[backup_of conf := set_ip_text (distro_name env) self ipaddr
                                     netmask interface_type]> (files w)))
    as Hfiles.
  { rewrite Hw2, Hw1. unfold set_ip_files. apply map_eq. intros p.
    destruct (decide (p = conf)) as [->|Hp]; [by rewrite !lookup_insert_eq|].
    rewrite !(lookup_insert_ne _ conf p) by done.
    destruct (decide (p = backup_of conf)) as [->|Hpb];
      [by rewrite !lookup_insert_eq|].
    rewrite !(lookup_insert_ne _ (backup_of conf) p) by done.
    rewrite lookup_delete_ne by done. rewrite lookup_insert_ne by done.
    rewrite lookup_insert_ne by done. by rewrite lookup_delete_ne. }
  assert (files w2 !! backup_of conf
          = Some (set_ip_text (distro_name env) self ipaddr netmask
                    interface_type)) as Hbak.
  { rewrite Hfiles. rewrite lookup_insert_ne by done.
    by rewrite lookup_insert_eq. }
  assert (files w2 !! conf
          = Some (set_ip_text (distro_name env) self ipaddr' netmask'
                    interface_type')) as Hnew.
  { rewrite Hfiles. by rewrite lookup_insert_eq. }
  exists conf, old. repeat split; try done.
  - rewrite Hnew. congruence.
  - rewrite Hbak. congruence.
Qed.

Lemma set_ip_twice_witness :
  exists conf old,
    config_path (distro_name demo_env) (name eth0) = Some conf
    /\ files demo_world !! conf = Some old
    /\ files (snd (set_ip demo_env eth0 (PStr "10.0.0.2") (PStr "255.0.0.0")
                     PNone
                     (snd (set_ip demo_env eth0 (PStr "192.168.0.1")
                             (PStr "255.255.255.0") PNone demo_world))))
       = <[conf := set_ip_text (distro_name demo_env) eth0 (PStr "10.0.0.2")
                     (PStr "255.0.0.0") PNone]>
           (<[backup_of conf := set_ip_text (distro_name demo_env) eth0
                                  (PStr "192.168.0.1") (PStr "255.255.255.0")
                                  PNone]> (files demo_world))
    /\ files (snd (set_ip demo_env eth0 (PStr "10.0.0.2") (PStr "255.0.0.0")
                     PNone
                     (snd (set_ip demo_env eth0 (PStr "192.168.0.1")
                             (PStr "255.255.255.0") PNone demo_world))))
         !! backup_of conf
       = Some (set_ip_text (distro_name demo_env) eth0 (PStr "192.168.0.1")
                 (PStr "255.255.255.0") PNone)
    /\ files (snd (set_ip demo_env eth0 (PStr "10.0.0.2") (PStr "255.0.0.0")
                     PNone
                     (snd (set_ip demo_env eth0 (PStr "192.168.0.1")
                             (PStr "255.255.255.0") PNone demo_world))))
         !! conf
       = Some (set_ip_text (distro_name demo_env) eth0 (PStr "10.0.0.2")
                 (PStr "255.0.0.0") PNone)
    /\ (old <> set_ip_text (distro_name demo_env) eth0 (PStr "192.168.0.1")
                 (PStr "255.255.255.0") PNone ->
        old <> set_ip_text (distro_name demo_env) eth0 (PStr "10.0.0.2")
                 (PStr "255.0.0.0") PNone ->
        files (snd (set_ip demo_env eth0 (PStr "10.0.0.2") (PStr "255.0.0.0")
                      PNone
                      (snd (set_ip demo_env eth0 (PStr "192.168.0.1")
                              (PStr "255.255.255.0") PNone demo_world))))
          !! conf <> Some old
        /\ files (snd (set_ip demo_env eth0 (PStr "10.0.0.2")
                         (PStr "255.0.0.0") PNone
                         (snd (set_ip demo_env eth0 (PStr "192.168.0.1")
                                 (PStr "255.255.255.0") PNone demo_world))))
             !! backup_of conf <> Some old).
Proof.
  apply (set_ip_twice demo_env eth0 (PStr "192.168.0.1") (PStr "255.255.255.0")
           PNone (PStr "10.0.0.2") (PStr "255.0.0.0") PNone demo_world
           (snd (set_ip demo_env eth0 (PStr "192.168.0.1")
                   (PStr "255.255.255.0") PNone demo_world))).
  - vm_compute. reflexivity.
  - vm_compute. reflexivity.
Defined.
